(** * Mission planner, lanelet2 default plugin: goal validation and route composition

    A shallow embedding of
    [planning/autoware_mission_planner/src/lanelet2_plugins/default_planner.cpp].

    Numbers: a C++ [double] is modelled as an exact rational ([Q]) in
    [Planner]; the containment search is also given over any arithmetic
    ([Rounding]), the doubles of the machine among them.  The marker that
    [is_goal_valid] publishes is drawn in [WithMarker].  Functions of other
    packages (lanelet2, boost
    geometry, tf2, the route handler, the vehicle-info utilities, the
    plugin's own header and [utility_functions.hpp]) are not part of the
    file under study: they are the fields of the record [Collaborators],
    over which every definition and theorem is parametric. *)

From Stdlib Require Import QArith Qabs Qround ZArith List Bool Lia.
From Stdlib Require Import Permutation.
From Stdlib Require Floats.PrimFloat.
From Stdlib Require String.
Import ListNotations.

Set Implicit Arguments.

(** ** Outcomes of a call

    A call either returns, or reads past the end of a vector
    ([back()], [front()] or [operator[]] on too short a vector), or exhausts
    the recursion budget of the model. *)

Inductive Outcome (A : Type) : Type :=
| Returned (a : A)
| OutOfBounds
| OutOfFuel.

Arguments OutOfBounds {A}.
Arguments OutOfFuel {A}.

Definition bind {A B : Type} (m : Outcome A) (k : A -> Outcome B) : Outcome B :=
  match m with
  | Returned a => k a
  | OutOfBounds => OutOfBounds
  | OutOfFuel => OutOfFuel
  end.

Notation "x <- m ;; k" := (bind m (fun x => k))
  (at level 61, m at next level, right associativity).

Definition of_option {A : Type} (o : option A) : Outcome A :=
  match o with
  | Some a => Returned a
  | None => OutOfBounds
  end.

(** ** Numbers *)

Definition Qltb (a b : Q) : bool := negb (Qle_bool b a).

(** [std::numeric_limits<double>::epsilon()], 2^-52. *)
Definition epsilon : Q := 1 # 4503599627370496.

(** [std::numeric_limits<double>::max()], 2^1024 - 2^971. *)
Definition DBL_MAX : Q := inject_Z (2 ^ 1024 - 2 ^ 971).

(** ** Data model *)

Record BasicPoint2d : Type := mkPoint2d { x2 : Q; y2 : Q }.

Record BasicPoint3d : Type := mkPoint3d { pt_x : Q; pt_y : Q; pt_z : Q }.

Definition BasicPolygon2d : Type := list BasicPoint2d.
Definition Polygon3d : Type := list BasicPoint3d.
Definition LineString3d : Type := list BasicPoint3d.

Definition to2D (p : BasicPoint3d) : BasicPoint2d := mkPoint2d (pt_x p) (pt_y p).

Record BoundingBox2d : Type := mkBBox { min_corner : BasicPoint2d; max_corner : BasicPoint2d }.

Record Quaternion : Type := mkQuaternion { q_x : Q; q_y : Q; q_z : Q; q_w : Q }.

Record Pose : Type := mkPose { position : BasicPoint3d; orientation : Quaternion }.

(** What the planner reads of a lanelet. *)
Record Lanelet : Type := mkLanelet {
  id : Z;
  polygon2d : BasicPolygon2d;
  centerline : LineString3d
}.

Definition setCenterline (l : Lanelet) (c : LineString3d) : Lanelet :=
  mkLanelet (id l) (polygon2d l) c.

(** A default-constructed [lanelet::ConstLanelet]. *)
Definition null_lanelet : Lanelet := mkLanelet 0 [] [].

(** [autoware_planning_msgs::msg::LaneletSegment]. *)
Record LaneletSegment : Type := mkSegment {
  preferred_primitive : Z;
  primitives : list Z
}.

Definition RouteSections : Type := list LaneletSegment.

(** [LaneletRoute]; its header is assigned by the caller. *)
Record LaneletRoute : Type := mkRoute {
  start_pose : Pose;
  goal_pose : Pose;
  segments : RouteSections
}.

Definition default_pose : Pose :=
  mkPose (mkPoint3d 0 0 0) (mkQuaternion 0 0 0 1).

(** A default-constructed route message, [LaneletRoute route_msg;]. *)
Definition empty_route : LaneletRoute := mkRoute default_pose default_pose [].

Record VehicleInfo : Type := mkVehicleInfo {
  max_longitudinal_offset_m : Q;
  left_overhang_m : Q;
  right_overhang_m : Q
}.

Record DefaultPlannerParam : Type := mkParam {
  goal_angle_threshold_deg : Q;
  enable_correct_goal_pose : bool;
  consider_no_drivable_lanes : bool;
  check_footprint_inside_lanes : bool
}.

(** The warnings the planner logs with [RCLCPP_WARN]. *)
Inductive Warning : Type :=
| FootprintExceedsLane   (* Goal's footprint exceeds lane! *)
| FailedToPlanRoute      (* Failed to plan route. *)
| GoalIsNotValid         (* Goal is not valid! Please check position and angle of goal_pose *)
| LoopDetected.          (* Loop detected within route! *)

(** ** Collaborators

    [RH] is the state of the route handler ([route_handler_]): the map and
    the route lanelets last set. *)

Record Collaborators : Type := mkCollaborators {
  RH : Type;
  (* boost::geometry *)
  within : BasicPolygon2d -> BasicPolygon2d -> bool;
  distance : BasicPolygon2d -> BasicPoint2d -> Q;
  (* lanelet::geometry *)
  project : LineString3d -> BasicPoint3d -> BasicPoint3d;
  distance2d_bbox : BoundingBox2d -> BasicPoint2d -> Q;
  distance2d : BasicPoint2d -> BasicPolygon2d -> Q;
  (* lanelet::utils *)
  lineStringWithWidthToPolygon : LineString3d -> option Polygon3d;
  generateFineCenterline : Lanelet -> Q -> LineString3d;
  generateFineCenterline_resolution : Q;     (* the default of its header *)
  getLaneletLength2d : Lanelet -> Q;
  getLaneletAngle : Lanelet -> BasicPoint3d -> Q;
  getClosestLanelet : list Lanelet -> Pose -> option Lanelet;
  getClosestLaneletWithConstrains : list Lanelet -> Pose -> Q -> option Lanelet;
  (* tf2, autoware_universe_utils, autoware_motion_utils, <cmath> *)
  getYaw : Quaternion -> Q;
  normalizeRadian : Q -> Q;
  deg2rad : Q -> Q;
  sin : Q -> Q;
  cos : Q -> Q;
  findNearestIndex : list BasicPoint3d -> BasicPoint3d -> nat;
  (* utility_functions.hpp and default_planner.hpp *)
  convertCenterlineToPoints : Lanelet -> list BasicPoint3d;
  convertBasicPoint3dToPose : BasicPoint3d -> Q -> Pose;
  convert_linear_ring_to_polygon : BasicPolygon2d -> BasicPolygon2d;
  combine_lanelets_with_shoulder : RH -> list Lanelet -> Lanelet;
  default_search_margin : Q;                 (* the default of [search_margin] *)
  (* vehicle info *)
  createFootprint : VehicleInfo -> BasicPolygon2d;
  transformVector : BasicPolygon2d -> Pose -> BasicPolygon2d;
  (* route handler and the map it holds *)
  getNextLanelets : RH -> Lanelet -> list Lanelet;
  getShoulderLaneletsAtPose : RH -> Pose -> list Lanelet;
  getRoadLaneletsAtPose : RH -> Pose -> list Lanelet;
  isRoadLanelet : RH -> Lanelet -> bool;
  laneletLayer : RH -> list Lanelet;
  (* [laneletLayer.nearestUntil(point, func)]: [func] is a visitor with a
     state of its own (what the C++ lambda captures by reference); the
     result is the optional primitive the search returns and the state the
     visitor is left in *)
  nearestUntil : forall S : Type,
      RH -> BasicPoint2d -> (S -> BoundingBox2d -> Lanelet -> bool * S) -> S ->
      option Lanelet * S;
  getAllParkingSpaces : RH -> list LineString3d;
  getAllParkingLots : RH -> list Polygon3d;
  getLaneletsFromId : RH -> Z -> Lanelet;
  planPathLaneletsBetweenCheckpoints : RH -> Pose -> Pose -> bool -> option (list Lanelet);
  setRouteLanelets : RH -> list Lanelet -> RH;
  createMapSegments : RH -> list Lanelet -> RouteSections;
  isRouteLooped : RH -> RouteSections -> bool
}.

(** The members of [DefaultPlanner] the planning core reads and writes. *)
Record DefaultPlanner (W : Collaborators) : Type := mkPlanner {
  route_handler_ : RH W;
  vehicle_info_ : VehicleInfo;
  param_ : DefaultPlannerParam
}.

Module Planner.
Section WithCollaborators.

Variable W : Collaborators.

(** ** Geometry predicates (anonymous namespace) *)

Definition is_in_lane (lanelet : Lanelet) (point : BasicPoint3d) : bool :=
  let distance := distance W (polygon2d lanelet) (to2D point) in
  let th_distance := epsilon in
  Qltb distance th_distance.

Fixpoint is_in_parking_space (parking_spaces : list LineString3d) (point : BasicPoint3d) : bool :=
  match parking_spaces with
  | [] => false
  | parking_space :: rest =>
      match lineStringWithWidthToPolygon W parking_space with
      | None => is_in_parking_space rest point
      | Some parking_space_polygon =>
          let distance := distance W (map to2D parking_space_polygon) (to2D point) in
          if Qltb distance epsilon then true else is_in_parking_space rest point
      end
  end.

Fixpoint is_in_parking_lot (parking_lots : list Polygon3d) (point : BasicPoint3d) : bool :=
  match parking_lots with
  | [] => false
  | parking_lot :: rest =>
      let distance := distance W (map to2D parking_lot) (to2D point) in
      if Qltb distance epsilon then true else is_in_parking_lot rest point
  end.

Definition project_goal_to_map (lanelet_component : Lanelet) (goal_point : BasicPoint3d) : Q :=
  let center_line :=
    generateFineCenterline W lanelet_component (generateFineCenterline_resolution W) in
  let project := project W center_line goal_point in
  pt_z project.

Definition get_closest_centerline_pose
    (road_lanelets : list Lanelet) (point : Pose) (vehicle_info : VehicleInfo) : Outcome Pose :=
  match getClosestLaneletWithConstrains W road_lanelets point 0 with
  | None => Returned point   (* point is not on any lanelet *)
  | Some closest_lanelet =>
      let refined_center_line := generateFineCenterline W closest_lanelet 1 in
      let closest_lanelet := setCenterline closest_lanelet refined_center_line in
      let lane_yaw := getLaneletAngle W closest_lanelet (position point) in
      let nearest_idx :=
        findNearestIndex W (convertCenterlineToPoints W closest_lanelet) (position point) in
      nearest_point <- of_option (nth_error (centerline closest_lanelet) nearest_idx) ;;
      let shift_length :=
        (right_overhang_m vehicle_info - left_overhang_m vehicle_info) / 2 in
      let delta_x := - shift_length * sin W lane_yaw in
      let delta_y := shift_length * cos W lane_yaw in
      let refined_point :=
        mkPoint3d (pt_x nearest_point + delta_x) (pt_y nearest_point + delta_y)
                  (pt_z nearest_point) in
      Returned (convertBasicPoint3dToPose W refined_point lane_yaw)
  end.

(** ** Multi-segment containment search

    [next_lane_length] is the in/out parameter of the C++ function: every
    result carries its value at the return.  One candidate of the [for] loop
    is [visit_next_lane]; [(true, l)] is [return true], [(false, l)] is the
    fall-through to the next candidate.  [deeper] is the recursive call. *)

Section ContainmentSearch.

Variable self : DefaultPlanner W.
Variable goal_footprint : BasicPolygon2d.

Definition long_enough (search_margin next_lane_length : Q) : bool :=
  Qltb (max_longitudinal_offset_m (vehicle_info_ self) + search_margin) next_lane_length.

Definition test_containment
    (combined_lanelets next_lane : Lanelet) (next_lane_length : Q) : Outcome (bool * Q) :=
  let next_lane_length := next_lane_length - getLaneletLength2d W next_lane in
  if within W goal_footprint (polygon2d combined_lanelets)
  then Returned (true, next_lane_length)
  else Returned (false, next_lane_length).

Definition search_deeper
    (deeper : Lanelet -> Lanelet -> Q -> Outcome (bool * Q))
    (combined_lanelets next_lane : Lanelet) (next_lane_length : Q) : Outcome (bool * Q) :=
  r <- deeper next_lane combined_lanelets next_lane_length ;;
  match r with
  | (false, next_lane_length) =>
      Returned (false, next_lane_length - getLaneletLength2d W next_lane)
  | (true, next_lane_length) => Returned (true, next_lane_length)
  end.

Definition visit_next_lane
    (deeper : Lanelet -> Lanelet -> Q -> Outcome (bool * Q))
    (combined_prev_lanelet : Lanelet) (search_margin : Q)
    (next_lane : Lanelet) (next_lane_length : Q) : Outcome (bool * Q) :=
  let next_lane_length := next_lane_length + getLaneletLength2d W next_lane in
  let combined_lanelets :=
    combine_lanelets_with_shoulder W (route_handler_ self) [combined_prev_lanelet; next_lane] in
  if long_enough search_margin next_lane_length
  then test_containment combined_lanelets next_lane next_lane_length
  else search_deeper deeper combined_lanelets next_lane next_lane_length.

Fixpoint search_following
    (deeper : Lanelet -> Lanelet -> Q -> Outcome (bool * Q))
    (combined_prev_lanelet : Lanelet) (search_margin : Q)
    (following : list Lanelet) (next_lane_length : Q) : Outcome (bool * Q) :=
  match following with
  | [] => Returned (false, next_lane_length)
  | next_lane :: rest =>
      r <- visit_next_lane deeper combined_prev_lanelet search_margin next_lane next_lane_length ;;
      match r with
      | (true, next_lane_length) => Returned (true, next_lane_length)
      | (false, next_lane_length) =>
          search_following deeper combined_prev_lanelet search_margin rest next_lane_length
      end
  end.

Fixpoint check_goal_footprint_inside_lanes
    (fuel : nat) (current_lanelet combined_prev_lanelet : Lanelet)
    (next_lane_length search_margin : Q) : Outcome (bool * Q) :=
  match fuel with
  | O => OutOfFuel
  | S fuel' =>
      if within W goal_footprint (polygon2d combined_prev_lanelet)
      then Returned (true, next_lane_length)
      else
        let following := getNextLanelets W (route_handler_ self) current_lanelet in
        search_following
          (fun next_lane combined_lanelets next_lane_length =>
             check_goal_footprint_inside_lanes fuel' next_lane combined_lanelets
               next_lane_length (default_search_margin W))
          combined_prev_lanelet search_margin following next_lane_length
  end.

End ContainmentSearch.

(** ** Goal validator *)

(** The [return] statement at which [is_goal_valid] leaves. *)
Inductive GoalVerdict : Type :=
| ValidOnShoulder        (* line 308, return true *)
| NoRoadLanelet          (* line 331, return false *)
| FootprintOutside       (* line 354, return false *)
| ValidOnLane            (* line 364, return true *)
| ValidInParkingSpace    (* line 372, return true *)
| ValidInParkingLot      (* line 379, return true *)
| NotValid.              (* line 382, return false *)

Definition accepted (v : GoalVerdict) : bool :=
  match v with
  | ValidOnShoulder | ValidOnLane | ValidInParkingSpace | ValidInParkingLot => true
  | NoRoadLanelet | FootprintOutside | NotValid => false
  end.

Definition back {A : Type} (l : list A) : option A := last (map Some l) None.

Definition front {A : Type} (l : list A) : option A := hd_error l.

Section Validation.

Variable self : DefaultPlanner W.

Let rh : RH W := route_handler_ self.

(** Lines 303-307 and 358-363: the heading test against a lane. *)
Definition angle_diff (lane : Lanelet) (goal : Pose) : Q :=
  let lane_yaw := getLaneletAngle W lane (position goal) in
  let goal_yaw := getYaw W (orientation goal) in
  normalizeRadian W (lane_yaw - goal_yaw).

Definition th_angle : Q := deg2rad W (goal_angle_threshold_deg (param_ self)).

Definition heading_within_threshold (lane : Lanelet) (goal : Pose) : bool :=
  Qltb (Qabs (angle_diff lane goal)) th_angle.

(** The visitor of lines 319-330; its state is [(closest_dist, closest_lanelet)]. *)
Definition closest_road_visitor (goal_point : BasicPoint2d)
    (st : Q * Lanelet) (bbox : BoundingBox2d) (ll : Lanelet) : bool * (Q * Lanelet) :=
  let closest_dist := fst st in
  if Qltb closest_dist (distance2d_bbox W bbox goal_point)
  then (true, st)   (* stop the search *)
  else
    let dist := distance2d W goal_point (polygon2d ll) in
    if isRoadLanelet W rh ll && Qltb dist closest_dist
    then (false, (dist, ll))
    else (false, st).

(** Lines 311-332: [Some closest_lanelet], or [None] at [return false]. *)
Definition find_closest_road_lanelet (goal : Pose) : option Lanelet :=
  let road_lanelets_at_goal := getRoadLaneletsAtPose W rh goal in
  match getClosestLanelet W road_lanelets_at_goal goal with
  | Some closest_lanelet => Some closest_lanelet
  | None =>
      let goal_point := mkPoint2d (pt_x (position goal)) (pt_y (position goal)) in
      let searched :=
        nearestUntil W rh goal_point (closest_road_visitor goal_point) (DBL_MAX, null_lanelet) in
      match fst searched with
      | None => None
      | Some _ => Some (snd (snd searched))
      end
  end.

Definition goal_polygon_footprint (goal : Pose) : BasicPolygon2d :=
  let local_vehicle_footprint := createFootprint W (vehicle_info_ self) in
  let goal_footprint := transformVector W local_vehicle_footprint goal in
  convert_linear_ring_to_polygon W goal_footprint.

(** Lines 346-352: [true] when the goal is rejected for its footprint.  The
    [&&] of C++ evaluates the search only when the check is enabled, and the
    parking-lot test only when the search fails. *)
Definition footprint_exceeds_lane (fuel : nat) (goal : Pose)
    (closest_lanelet combined_prev_lanelet : Lanelet) : Outcome bool :=
  if check_footprint_inside_lanes (param_ self) then
    r <- check_goal_footprint_inside_lanes self (goal_polygon_footprint goal) fuel
           closest_lanelet combined_prev_lanelet 0 (default_search_margin W) ;;
    if fst r then Returned false
    else Returned (negb (is_in_parking_lot (getAllParkingLots W rh) (position goal)))
  else Returned false.

(** Lines 357-366. *)
Definition on_lane_rule (closest_lanelet : Lanelet) (goal : Pose) : bool :=
  if is_in_lane closest_lanelet (position goal)
  then heading_within_threshold closest_lanelet goal
  else false.

Definition is_goal_valid_at (fuel : nat) (goal : Pose) (path_lanelets : list Lanelet)
  : Outcome (list Warning * GoalVerdict) :=
  let goal_lanelet_pt := position goal in
  (* check if goal is in shoulder lanelet *)
  let shoulder_lanelets := getShoulderLaneletsAtPose W rh goal in
  let on_shoulder :=
    match getClosestLanelet W shoulder_lanelets goal with
    | Some closest_shoulder_lanelet => heading_within_threshold closest_shoulder_lanelet goal
    | None => false
    end in
  if on_shoulder then Returned ([], ValidOnShoulder)
  else
    match find_closest_road_lanelet goal with
    | None => Returned ([], NoRoadLanelet)
    | Some closest_lanelet =>
        (* combine calculated route lanelets *)
        let combined_prev_lanelet := combine_lanelets_with_shoulder W rh path_lanelets in
        (* check if goal footprint exceeds lane when the goal isn't in parking_lot *)
        exceeds <- footprint_exceeds_lane fuel goal closest_lanelet combined_prev_lanelet ;;
        if exceeds then Returned ([FootprintExceedsLane], FootprintOutside)
        else if on_lane_rule closest_lanelet goal then Returned ([], ValidOnLane)
        else if is_in_parking_space (getAllParkingSpaces W rh) goal_lanelet_pt
             then Returned ([], ValidInParkingSpace)
        else if is_in_parking_lot (getAllParkingLots W rh) goal_lanelet_pt
             then Returned ([], ValidInParkingLot)
        else Returned ([], NotValid)
    end.

Definition is_goal_valid (fuel : nat) (goal : Pose) (path_lanelets : list Lanelet)
  : Outcome (list Warning * bool) :=
  r <- is_goal_valid_at fuel goal path_lanelets ;;
  Returned (fst r, accepted (snd r)).

(** ** Pose refinement *)

Definition refine_goal_height (goal : Pose) (route_sections : RouteSections) : Outcome Pose :=
  last_section <- of_option (back route_sections) ;;
  let goal_lane_id := preferred_primitive last_section in
  let goal_lanelet := getLaneletsFromId W rh goal_lane_id in
  let goal_lanelet_pt := position goal in
  let goal_height := project_goal_to_map goal_lanelet goal_lanelet_pt in
  Returned (mkPose (mkPoint3d (pt_x (position goal)) (pt_y (position goal)) goal_height)
                   (orientation goal)).

End Validation.

(** ** Route composer *)

(** Line 413: the lane is skipped when it repeats the last one accumulated. *)
Definition repeats_back (all_route_lanelets : list Lanelet) (lane : Lanelet) : bool :=
  match back all_route_lanelets with
  | Some b => Z.eqb (id lane) (id b)
  | None => false
  end.

(** Lines 412-415. *)
Fixpoint append_path (path_lanelets all_route_lanelets : list Lanelet) : list Lanelet :=
  match path_lanelets with
  | [] => all_route_lanelets
  | lane :: rest =>
      if repeats_back all_route_lanelets lane
      then append_path rest all_route_lanelets
      else append_path rest (all_route_lanelets ++ [lane])
  end.

(** Lines 402-416: [None] is the [return route_msg] of line 409. *)
Fixpoint plan_route_lanelets (self : DefaultPlanner W) (points : list Pose)
    (all_route_lanelets : list Lanelet) : option (list Lanelet) :=
  match points with
  | start_check_point :: ((goal_check_point :: _) as rest) =>
      match planPathLaneletsBetweenCheckpoints W (route_handler_ self)
              start_check_point goal_check_point
              (consider_no_drivable_lanes (param_ self)) with
      | None => None
      | Some path_lanelets =>
          plan_route_lanelets self rest (append_path path_lanelets all_route_lanelets)
      end
  | _ => Some all_route_lanelets
  end.

(** What a call of [plan] leaves behind: the planner (its route handler is
    written by [setRouteLanelets]), the warnings logged, the route returned. *)
Record PlanExit : Type := mkExit {
  planner_after : DefaultPlanner W;
  warnings : list Warning;
  returned : LaneletRoute
}.

(** Line 417: the planner once [setRouteLanelets] has written its handler. *)
Definition with_route_lanelets (self : DefaultPlanner W) (all_route_lanelets : list Lanelet)
  : DefaultPlanner W :=
  mkPlanner W (setRouteLanelets W (route_handler_ self) all_route_lanelets)
            (vehicle_info_ self) (param_ self).

(** Lines 420-425. *)
Definition select_goal_pose (self : DefaultPlanner W) (goal_pose : Pose) : Outcome Pose :=
  if enable_correct_goal_pose (param_ self)
  then get_closest_centerline_pose (laneletLayer W (route_handler_ self)) goal_pose
         (vehicle_info_ self)
  else Returned goal_pose.

(** Debug logging and the footprint marker published for visualisation are
    left out; the warnings are kept. *)
Definition plan (fuel : nat) (self : DefaultPlanner W) (points : list Pose) : Outcome PlanExit :=
  let route_msg := empty_route in
  match plan_route_lanelets self points [] with
  | None => Returned (mkExit self [FailedToPlanRoute] route_msg)
  | Some all_route_lanelets =>
      let self := with_route_lanelets self all_route_lanelets in
      let route_sections := createMapSegments W (route_handler_ self) all_route_lanelets in
      goal_pose <- of_option (back points) ;;
      goal_pose <- select_goal_pose self goal_pose ;;
      valid <- is_goal_valid self fuel goal_pose all_route_lanelets ;;
      if negb (snd valid)
      then Returned (mkExit self (fst valid ++ [GoalIsNotValid]) route_msg)
      else if isRouteLooped W (route_handler_ self) route_sections
      then Returned (mkExit self (fst valid ++ [LoopDetected]) route_msg)
      else
        refined_goal <- refine_goal_height self goal_pose route_sections ;;
        start <- of_option (front points) ;;
        Returned (mkExit self (fst valid) (mkRoute start refined_goal route_sections))
  end.

(** ** Vocabulary of the properties *)

(** A search that leaves the length as it found it whenever it fails. *)
Definition restores (deeper : Lanelet -> Lanelet -> Q -> Outcome (bool * Q)) : Prop :=
  forall nl c l l', deeper nl c l = Returned (false, l') -> l' == l.

(** No two neighbours of a list of ids are equal. *)
Definition adjacent_ids_differ (ids : list Z) : Prop :=
  forall (i : nat) (a b : Z),
    nth_error ids i = Some a -> nth_error ids (S i) = Some b -> a <> b.

(** The consecutive pairs of a checkpoint list, as the loop of [plan] forms them. *)
Fixpoint checkpoint_pairs (points : list Pose) : list (Pose * Pose) :=
  match points with
  | start_check_point :: ((goal_check_point :: _) as rest) =>
      (start_check_point, goal_check_point) :: checkpoint_pairs rest
  | _ => []
  end.

(** The path search connects a pair of checkpoints by at least one lanelet. *)
Definition pair_has_path (self : DefaultPlanner W) (pair : Pose * Pose) : Prop :=
  exists path_lanelets,
    planPathLaneletsBetweenCheckpoints W (route_handler_ self) (fst pair) (snd pair)
      (consider_no_drivable_lanes (param_ self)) = Some path_lanelets /\
    path_lanelets <> [].

(** The per-pair results merged as lines 412-415 merge them. *)
Definition merge_paths (results : list (list Lanelet)) : list Lanelet :=
  fold_left (fun all_route_lanelets path_lanelets => append_path path_lanelets all_route_lanelets)
            results [].

(** The three ways a request fails, each with the warning [plan] logs last:
    some consecutive pair of checkpoints has no path; the goal is not valid;
    the route is looped. *)
Inductive plan_failure (fuel : nat) (self : DefaultPlanner W) (points : list Pose)
  : Warning -> Prop :=
| fails_no_path : forall pre start goal post,
    points = pre ++ start :: goal :: post ->
    planPathLaneletsBetweenCheckpoints W (route_handler_ self) start goal
      (consider_no_drivable_lanes (param_ self)) = None ->
    plan_failure fuel self points FailedToPlanRoute
| fails_invalid_goal : forall all last_point goal w,
    plan_route_lanelets self points [] = Some all ->
    back points = Some last_point ->
    select_goal_pose (with_route_lanelets self all) last_point = Returned goal ->
    is_goal_valid (with_route_lanelets self all) fuel goal all = Returned (w, false) ->
    plan_failure fuel self points GoalIsNotValid
| fails_looped : forall all last_point goal w,
    plan_route_lanelets self points [] = Some all ->
    back points = Some last_point ->
    select_goal_pose (with_route_lanelets self all) last_point = Returned goal ->
    is_goal_valid (with_route_lanelets self all) fuel goal all = Returned (w, true) ->
    isRouteLooped W (route_handler_ (with_route_lanelets self all))
      (createMapSegments W (route_handler_ (with_route_lanelets self all)) all) = true ->
    plan_failure fuel self points LoopDetected.

(** The reading of the specification under which a caller tells the kind of
    a failure from the value [plan] returns: some function of the route
    returned yields the warning logged last. *)
Definition failure_told_by_value : Prop :=
  exists tell : LaneletRoute -> Warning,
    forall fuel self points e w k,
      plan fuel self points = Returned e ->
      warnings e = w ++ [k] ->
      tell (returned e) = k.

End WithCollaborators.
End Planner.

(** ** A small map to run the planner on

    Four road lanelets, 5 m long and 4 m wide, along the x axis: [lane_a],
    [lane_b] and [lane_c] follow each other from x = 0 to x = 15, [lane_d]
    lies apart at x = 100.  One parking lot at y = 10..14.  Polygons are
    axis-aligned rectangles and every lane heads along +x, so containment
    and distance are those of bounding boxes, and a pose keeps its heading
    (radians) in [q_z]. *)

Module TestMap.

Definition rect (x0 y0 x1 y1 : Q) : BasicPolygon2d :=
  [mkPoint2d x0 y0; mkPoint2d x1 y0; mkPoint2d x1 y1; mkPoint2d x0 y1].

Definition road (i : Z) (x0 : Q) : Lanelet :=
  mkLanelet i (rect x0 0 (x0 + 5) 4) [mkPoint3d x0 2 0; mkPoint3d (x0 + 5) 2 0].

Definition lane_a : Lanelet := Eval cbv in road 1 0.
Definition lane_b : Lanelet := Eval cbv in road 2 5.
Definition lane_c : Lanelet := Eval cbv in road 3 10.
Definition lane_d : Lanelet := Eval cbv in road 4 100.

Definition lanes : list Lanelet := [lane_a; lane_b; lane_c; lane_d].

Definition parking_lot : Polygon3d :=
  [mkPoint3d 0 10 0; mkPoint3d 5 10 0; mkPoint3d 5 14 0; mkPoint3d 0 14 0].

Definition qmin (a b : Q) : Q := if Qle_bool a b then a else b.
Definition qmax (a b : Q) : Q := if Qle_bool a b then b else a.

Definition bbox_of (poly : BasicPolygon2d) : option BoundingBox2d :=
  match poly with
  | [] => None
  | p :: rest =>
      Some (fold_left
              (fun b q => mkBBox (mkPoint2d (qmin (x2 (min_corner b)) (x2 q))
                                            (qmin (y2 (min_corner b)) (y2 q)))
                                 (mkPoint2d (qmax (x2 (max_corner b)) (x2 q))
                                            (qmax (y2 (max_corner b)) (y2 q))))
              rest (mkBBox p p))
  end.

Definition box_in_box (a b : BoundingBox2d) : bool :=
  Qle_bool (x2 (min_corner b)) (x2 (min_corner a)) &&
  Qle_bool (y2 (min_corner b)) (y2 (min_corner a)) &&
  Qle_bool (x2 (max_corner a)) (x2 (max_corner b)) &&
  Qle_bool (y2 (max_corner a)) (y2 (max_corner b)).

Definition t_within (inner outer : BasicPolygon2d) : bool :=
  match bbox_of inner, bbox_of outer with
  | Some a, Some b => box_in_box a b
  | _, _ => false
  end.

(** Distance of a point to a box in the maximum norm. *)
Definition box_distance (b : BoundingBox2d) (p : BasicPoint2d) : Q :=
  let dx := qmax 0 (qmax (x2 (min_corner b) - x2 p) (x2 p - x2 (max_corner b))) in
  let dy := qmax 0 (qmax (y2 (min_corner b) - y2 p) (y2 p - y2 (max_corner b))) in
  qmax dx dy.

Definition t_distance (poly : BasicPolygon2d) (p : BasicPoint2d) : Q :=
  match bbox_of poly with
  | Some b => box_distance b p
  | None => DBL_MAX
  end.

Definition t_project (line : LineString3d) (p : BasicPoint3d) : BasicPoint3d :=
  match line with
  | c :: _ => mkPoint3d (pt_x p) (pt_y c) (pt_z c)
  | [] => p
  end.

Definition t_length (l : Lanelet) : Q :=
  match bbox_of (polygon2d l) with
  | Some b => x2 (max_corner b) - x2 (min_corner b)
  | None => 0
  end.

(** [M_PI] as the double it is. *)
Definition pi : Q := 884279719003555 # 281474976710656.

Definition trunc (q : Q) : Z := if Qle_bool 0 q then Qfloor q else (- Qfloor (- q))%Z.

Definition fmod (a b : Q) : Q := a - b * inject_Z (trunc (a / b)).

Definition t_normalizeRadian (rad : Q) : Q :=
  let value := fmod rad (2 * pi) in
  if Qle_bool (- pi) value && Qltb value pi then value
  else if Qle_bool 0 value then value - 2 * pi else value + 2 * pi.

Definition t_deg2rad (deg : Q) : Q := deg * pi / 180.

Definition contains_pose (l : Lanelet) (p : Pose) : bool :=
  Qle_bool (t_distance (polygon2d l) (to2D (position p))) 0.

Definition t_combine (lanelets : list Lanelet) : Lanelet :=
  match bbox_of (flat_map polygon2d lanelets) with
  | Some b =>
      mkLanelet 0 (rect (x2 (min_corner b)) (y2 (min_corner b))
                        (x2 (max_corner b)) (y2 (max_corner b))) []
  | None => null_lanelet
  end.

Definition t_next (l : Lanelet) : list Lanelet :=
  if Z.eqb (id l) 1 then [lane_b] else if Z.eqb (id l) 2 then [lane_c] else [].

Fixpoint t_nearestUntil (S : Type) (func : S -> BoundingBox2d -> Lanelet -> bool * S)
    (items : list Lanelet) (s : S) : option Lanelet * S :=
  match items with
  | [] => (None, s)
  | ll :: rest =>
      match bbox_of (polygon2d ll) with
      | None => t_nearestUntil func rest s
      | Some b =>
          let r := func s b ll in
          if fst r then (Some ll, snd r) else t_nearestUntil func rest (snd r)
      end
  end.

Definition lane_index (p : Pose) : option Z :=
  option_map id (find (fun l => contains_pose l p) [lane_a; lane_b; lane_c]).

(** Lanelets [i..j] in driving order; the test road may be driven both ways. *)
Definition t_planPath (start goal : Pose) : option (list Lanelet) :=
  match lane_index start, lane_index goal with
  | Some i, Some j =>
      if Z.leb i j
      then Some (filter (fun l => Z.leb i (id l) && Z.leb (id l) j) [lane_a; lane_b; lane_c])
      else Some (filter (fun l => Z.leb j (id l) && Z.leb (id l) i) [lane_c; lane_b; lane_a])
  | _, _ => None
  end.

Fixpoint has_repeat (ids : list Z) : bool :=
  match ids with
  | [] => false
  | i :: rest => existsb (Z.eqb i) rest || has_repeat rest
  end.

Definition world : Collaborators :=
  {| RH := list Lanelet;
     within := t_within;
     distance := t_distance;
     project := t_project;
     distance2d_bbox := box_distance;
     distance2d := fun p poly => t_distance poly p;
     lineStringWithWidthToPolygon := fun ls => Some ls;
     generateFineCenterline := fun l _ => centerline l;
     generateFineCenterline_resolution := 5;
     getLaneletLength2d := t_length;
     getLaneletAngle := fun _ _ => 0;
     getClosestLanelet := fun ls _ => hd_error ls;
     getClosestLaneletWithConstrains := fun ls p _ => find (fun l => contains_pose l p) ls;
     getYaw := q_z;
     normalizeRadian := t_normalizeRadian;
     deg2rad := t_deg2rad;
     sin := fun _ => 0;
     cos := fun _ => 1;
     findNearestIndex := fun _ _ => O;
     convertCenterlineToPoints := centerline;
     convertBasicPoint3dToPose := fun p yaw => mkPose p (mkQuaternion 0 0 yaw 1);
     convert_linear_ring_to_polygon := fun r => r;
     combine_lanelets_with_shoulder := fun _ ls => t_combine ls;
     default_search_margin := 2;
     createFootprint := fun vi => rect (-1) (-1) (max_longitudinal_offset_m vi) 1;
     transformVector := fun fp p =>
       map (fun q => mkPoint2d (x2 q + pt_x (position p)) (y2 q + pt_y (position p))) fp;
     getNextLanelets := fun _ l => t_next l;
     getShoulderLaneletsAtPose := fun _ _ => [];
     getRoadLaneletsAtPose := fun _ p => filter (fun l => contains_pose l p) lanes;
     isRoadLanelet := fun _ _ => true;
     laneletLayer := fun _ => lanes;
     nearestUntil := fun S _ _ func s => t_nearestUntil func lanes s;
     getAllParkingSpaces := fun _ => [];
     getAllParkingLots := fun _ => [parking_lot];
     getLaneletsFromId := fun _ i =>
       match find (fun l => Z.eqb (id l) i) lanes with Some l => l | None => null_lanelet end;
     planPathLaneletsBetweenCheckpoints := fun _ s g _ => t_planPath s g;
     setRouteLanelets := fun _ ls => ls;
     createMapSegments := fun _ ls => map (fun l => mkSegment (id l) [id l]) ls;
     isRouteLooped := fun _ secs => has_repeat (map preferred_primitive secs) |}.

Definition pose_at (x y heading : Q) : Pose :=
  mkPose (mkPoint3d x y 0) (mkQuaternion 0 0 heading 1).

(** A vehicle reaching [reach] metres ahead of its pose, 10 degrees of tolerance. *)
Definition planner_with (reach : Q) (check_footprint : bool) : DefaultPlanner world :=
  mkPlanner world [] (mkVehicleInfo reach 1 1) (mkParam 10 false false check_footprint).

Definition planner : DefaultPlanner world := planner_with 3 true.

(** Checkpoints: on [lane_a], on [lane_b], in the parking lot. *)
Definition on_a : Pose := pose_at 1 2 0.
Definition on_b : Pose := pose_at 7 2 0.
Definition in_lot : Pose := pose_at 2 12 0.

(** On [lane_b], one radian off the lane direction. *)
Definition on_b_askew : Pose := pose_at 7 2 1.

(** On [lane_b], 9.999, 10 and 10.001 degrees off the lane direction. *)
Definition on_b_inside : Pose := pose_at 7 2 (t_deg2rad (9999 # 1000)).
Definition on_b_at : Pose := pose_at 7 2 (t_deg2rad 10).
Definition on_b_outside : Pose := pose_at 7 2 (t_deg2rad (10001 # 1000)).

(** A footprint from x = 3 to x = 12, longer than [lane_a] and [lane_b] together. *)
Definition long_footprint : BasicPolygon2d := rect 3 1 12 3.

(** A footprint beside the road. *)
Definition stray_footprint : BasicPolygon2d := rect 3 8 7 10.

End TestMap.

(** ** Visualisation

    [visualize] sorts the lanelets of a route into three lists and hands
    them to the marker functions of lanelet2_extension;
    [visualize_debug_footprint] draws the goal footprint as a line strip. *)

Module Visualization.

(** [autoware_universe_utils::createMarkerColor]. *)
Record ColorRGBA : Type := createMarkerColor {
  color_r : Q; color_g : Q; color_b : Q; color_a : Q
}.

(** The marker functions of [lanelet::visualization] and [insert_marker_array]. *)
Record MarkerTools : Type := mkMarkerTools {
  MarkerArray : Type;
  no_markers : MarkerArray;
  insert_marker_array : MarkerArray -> MarkerArray -> MarkerArray;
  laneletsBoundaryAsMarkerArray : list Lanelet -> ColorRGBA -> bool -> MarkerArray;
  laneletsAsTriangleMarkerArray : String.string -> list Lanelet -> ColorRGBA -> MarkerArray
}.

(** The three lists of lines 176-178. *)
Record RouteLanelets : Type := mkRouteLanelets {
  route_lanelets : list Lanelet;
  end_lanelets : list Lanelet;
  goal_lanelets : list Lanelet
}.

(** The marker namespaces of lines 207, 210 and 213. *)
Module Names.
Import String.
Definition route_lanelets : string := "route_lanelets"%string.
Definition end_lanelets : string := "end_lanelets"%string.
Definition goal_lanelets : string := "goal_lanelets"%string.
End Names.

Section WithCollaborators.

Variable W : Collaborators.
Variable M : MarkerTools.

(** Lines 182-188, the body of the inner loop. *)
Definition sort_lane (rh : RH W) (route_section : LaneletSegment)
    (acc : RouteLanelets) (lane_id : Z) : RouteLanelets :=
  let lanelet := getLaneletsFromId W rh lane_id in
  let route := route_lanelets acc ++ [lanelet] in
  if Z.eqb (preferred_primitive route_section) lane_id
  then mkRouteLanelets route (end_lanelets acc) (goal_lanelets acc ++ [lanelet])
  else mkRouteLanelets route (end_lanelets acc ++ [lanelet]) (goal_lanelets acc).

(** Lines 180-190. *)
Definition sort_route_lanelets (rh : RH W) (route : LaneletRoute) : RouteLanelets :=
  fold_left
    (fun acc route_section => fold_left (sort_lane rh route_section) (primitives route_section) acc)
    (segments route) (mkRouteLanelets [] [] []).

Definition visualize (self : DefaultPlanner W) (route : LaneletRoute) : MarkerArray M :=
  let sorted := sort_route_lanelets (route_handler_ self) route in
  let cl_route := createMarkerColor (8 # 10) (99 # 100) (8 # 10) (15 # 100) in
  let cl_ll_borders := createMarkerColor 1 1 1 (999 # 1000) in
  let cl_end := createMarkerColor (2 # 10) (2 # 10) (4 # 10) (5 # 100) in
  let cl_goal := createMarkerColor (2 # 10) (4 # 10) (4 # 10) (5 # 100) in
  let route_marker_array := no_markers M in
  let route_marker_array :=
    insert_marker_array M route_marker_array
      (laneletsBoundaryAsMarkerArray M (route_lanelets sorted) cl_ll_borders false) in
  let route_marker_array :=
    insert_marker_array M route_marker_array
      (laneletsAsTriangleMarkerArray M Names.route_lanelets (route_lanelets sorted) cl_route) in
  let route_marker_array :=
    insert_marker_array M route_marker_array
      (laneletsAsTriangleMarkerArray M Names.end_lanelets (end_lanelets sorted) cl_end) in
  let route_marker_array :=
    insert_marker_array M route_marker_array
      (laneletsAsTriangleMarkerArray M Names.goal_lanelets (goal_lanelets sorted) cl_goal) in
  route_marker_array.

End WithCollaborators.

(** [autoware_universe_utils::createPoint]. *)
Definition createPoint (x y z : Q) : BasicPoint3d := mkPoint3d x y z.

(** Lines 228-240: the points of the line strip.  The vertices
    [goal_footprint[0]] to [goal_footprint[5]] are read unguarded. *)
Definition visualize_debug_footprint_points (goal_footprint : BasicPolygon2d)
  : Outcome (list BasicPoint3d) :=
  v0 <- of_option (nth_error goal_footprint 0) ;;
  v1 <- of_option (nth_error goal_footprint 1) ;;
  v2 <- of_option (nth_error goal_footprint 2) ;;
  v3 <- of_option (nth_error goal_footprint 3) ;;
  v4 <- of_option (nth_error goal_footprint 4) ;;
  v5 <- of_option (nth_error goal_footprint 5) ;;
  let points :=
    [createPoint (x2 v0) (y2 v0) 0; createPoint (x2 v1) (y2 v1) 0;
     createPoint (x2 v2) (y2 v2) 0; createPoint (x2 v3) (y2 v3) 0;
     createPoint (x2 v4) (y2 v4) 0; createPoint (x2 v5) (y2 v5) 0] in
  first_point <- of_option (Planner.front points) ;;
  Returned (points ++ [first_point]).

End Visualization.

(** ** Further vocabulary *)

Module Vocabulary.
Section WithCollaborators.

Variable W : Collaborators.
Variable self : DefaultPlanner W.

(** [extends current combined current' combined']: from the lanelet
    [current] with accumulated lanelet [combined], following lanelets of
    the graph and merging each into the accumulated one leads to
    [current'] with [combined']. *)
Inductive extends : Lanelet -> Lanelet -> Lanelet -> Lanelet -> Prop :=
| extends_here : forall current combined, extends current combined current combined
| extends_next : forall current combined next_lane current' combined',
    In next_lane (getNextLanelets W (route_handler_ self) current) ->
    extends next_lane
      (combine_lanelets_with_shoulder W (route_handler_ self) [combined; next_lane])
      current' combined' ->
    extends current combined current' combined'.

(** The path search run on every pair before anything is merged. *)
Fixpoint search_all_pairs (pairs : list (Pose * Pose)) : option (list (list Lanelet)) :=
  match pairs with
  | [] => Some []
  | (start_check_point, goal_check_point) :: rest =>
      match planPathLaneletsBetweenCheckpoints W (route_handler_ self)
              start_check_point goal_check_point
              (consider_no_drivable_lanes (param_ self)) with
      | None => None
      | Some path_lanelets => option_map (cons path_lanelets) (search_all_pairs rest)
      end
  end.

End WithCollaborators.

(** [kept] is [l] with some elements left out, the order kept. *)
Inductive subsequence (A : Type) : list A -> list A -> Prop :=
| subsequence_nil : subsequence [] []
| subsequence_skip : forall x kept l, subsequence kept l -> subsequence kept (x :: l)
| subsequence_keep : forall x kept l, subsequence kept l -> subsequence (x :: kept) (x :: l).

End Vocabulary.

(** ** The containment search over machine numbers

    [next_lane_length], the lanelet lengths, the vehicle's offset and the
    margin are [double]s in the code.  Here the search of lines 247-289 is
    given over an arithmetic, whatever it is: over the rationals it is the
    search of [Planner]; over [binary64], the IEEE 754 doubles of the
    machine, every [+=] and [-=] rounds as it does in the code. *)

Record Arithmetic : Type := mkArithmetic {
  num : Type;
  num_add : num -> num -> num;
  num_sub : num -> num -> num;
  num_ltb : num -> num -> bool
}.

Definition rationals : Arithmetic := mkArithmetic Qplus Qminus Qltb.

Definition binary64 : Arithmetic :=
  mkArithmetic PrimFloat.add PrimFloat.sub PrimFloat.ltb.

Module Rounding.
Section Search.

Variable A : Arithmetic.
Variable W : Collaborators.
Variable self : DefaultPlanner W.
Variable goal_footprint : BasicPolygon2d.

(** [lanelet::utils::getLaneletLength2d], [vehicle_info_.max_longitudinal_offset_m]
    and the default of [search_margin], as machine numbers. *)
Variable length2d : Lanelet -> num A.
Variable max_offset : num A.
Variable default_margin : num A.

Definition long_enough (search_margin next_lane_length : num A) : bool :=
  num_ltb A (num_add A max_offset search_margin) next_lane_length.

Definition test_containment
    (combined_lanelets next_lane : Lanelet) (next_lane_length : num A)
  : Outcome (bool * num A) :=
  let next_lane_length := num_sub A next_lane_length (length2d next_lane) in
  if within W goal_footprint (polygon2d combined_lanelets)
  then Returned (true, next_lane_length)
  else Returned (false, next_lane_length).

Definition search_deeper
    (deeper : Lanelet -> Lanelet -> num A -> Outcome (bool * num A))
    (combined_lanelets next_lane : Lanelet) (next_lane_length : num A)
  : Outcome (bool * num A) :=
  r <- deeper next_lane combined_lanelets next_lane_length ;;
  match r with
  | (false, next_lane_length) =>
      Returned (false, num_sub A next_lane_length (length2d next_lane))
  | (true, next_lane_length) => Returned (true, next_lane_length)
  end.

Definition visit_next_lane
    (deeper : Lanelet -> Lanelet -> num A -> Outcome (bool * num A))
    (combined_prev_lanelet : Lanelet) (search_margin : num A)
    (next_lane : Lanelet) (next_lane_length : num A) : Outcome (bool * num A) :=
  let next_lane_length := num_add A next_lane_length (length2d next_lane) in
  let combined_lanelets :=
    combine_lanelets_with_shoulder W (route_handler_ self) [combined_prev_lanelet; next_lane] in
  if long_enough search_margin next_lane_length
  then test_containment combined_lanelets next_lane next_lane_length
  else search_deeper deeper combined_lanelets next_lane next_lane_length.

Fixpoint search_following
    (deeper : Lanelet -> Lanelet -> num A -> Outcome (bool * num A))
    (combined_prev_lanelet : Lanelet) (search_margin : num A)
    (following : list Lanelet) (next_lane_length : num A) : Outcome (bool * num A) :=
  match following with
  | [] => Returned (false, next_lane_length)
  | next_lane :: rest =>
      r <- visit_next_lane deeper combined_prev_lanelet search_margin next_lane next_lane_length ;;
      match r with
      | (true, next_lane_length) => Returned (true, next_lane_length)
      | (false, next_lane_length) =>
          search_following deeper combined_prev_lanelet search_margin rest next_lane_length
      end
  end.

Fixpoint check_goal_footprint_inside_lanes
    (fuel : nat) (current_lanelet combined_prev_lanelet : Lanelet)
    (next_lane_length search_margin : num A) : Outcome (bool * num A) :=
  match fuel with
  | O => OutOfFuel
  | S fuel' =>
      if within W goal_footprint (polygon2d combined_prev_lanelet)
      then Returned (true, next_lane_length)
      else
        let following := getNextLanelets W (route_handler_ self) current_lanelet in
        search_following
          (fun next_lane combined_lanelets next_lane_length =>
             check_goal_footprint_inside_lanes fuel' next_lane combined_lanelets
               next_lane_length default_margin)
          combined_prev_lanelet search_margin following next_lane_length
  end.

(** What a failed search has done to the length: nothing; or one such
    thing after another; or the length of a lanelet added, such a thing
    done, and that length subtracted again. *)
Inductive undone : (num A -> num A) -> Prop :=
| undone_nothing : undone (fun x => x)
| undone_then : forall f g, undone f -> undone g -> undone (fun x => g (f x))
| undone_around : forall next_lane f,
    undone f ->
    undone (fun x => num_sub A (f (num_add A x (length2d next_lane))) (length2d next_lane)).

End Search.
End Rounding.

(** ** The goal validator and the planner with the footprint marker

    Line 337 publishes the marker of the goal footprint before the
    containment search; [visualize_debug_footprint] reads six vertices of
    the ring unguarded.  [Planner.is_goal_valid_at] and [Planner.plan] leave
    the marker out; here it is drawn where the code draws it.  The marker
    itself goes to a topic and is not part of what the functions return. *)

Module WithMarker.
Section WithCollaborators.

Variable W : Collaborators.

(** Lines 334-336: the ring handed to [visualize_debug_footprint]. *)
Definition goal_footprint (self : DefaultPlanner W) (goal : Pose) : BasicPolygon2d :=
  let local_vehicle_footprint := createFootprint W (vehicle_info_ self) in
  transformVector W local_vehicle_footprint goal.

(** Lines 298-310: whether the shoulder rule accepts. *)
Definition on_shoulder (self : DefaultPlanner W) (goal : Pose) : bool :=
  let shoulder_lanelets := getShoulderLaneletsAtPose W (route_handler_ self) goal in
  match getClosestLanelet W shoulder_lanelets goal with
  | Some closest_shoulder_lanelet =>
      Planner.heading_within_threshold self closest_shoulder_lanelet goal
  | None => false
  end.

Definition is_goal_valid_at (self : DefaultPlanner W) (fuel : nat) (goal : Pose)
    (path_lanelets : list Lanelet) : Outcome (list Warning * Planner.GoalVerdict) :=
  let rh := route_handler_ self in
  let goal_lanelet_pt := position goal in
  if on_shoulder self goal then Returned ([], Planner.ValidOnShoulder)
  else
    match Planner.find_closest_road_lanelet self goal with
    | None => Returned ([], Planner.NoRoadLanelet)
    | Some closest_lanelet =>
        marker <- Visualization.visualize_debug_footprint_points (goal_footprint self goal) ;;
        let combined_prev_lanelet := combine_lanelets_with_shoulder W rh path_lanelets in
        exceeds <-
          Planner.footprint_exceeds_lane self fuel goal closest_lanelet combined_prev_lanelet ;;
        if exceeds then Returned ([FootprintExceedsLane], Planner.FootprintOutside)
        else if Planner.on_lane_rule self closest_lanelet goal
             then Returned ([], Planner.ValidOnLane)
        else if Planner.is_in_parking_space W (getAllParkingSpaces W rh) goal_lanelet_pt
             then Returned ([], Planner.ValidInParkingSpace)
        else if Planner.is_in_parking_lot W (getAllParkingLots W rh) goal_lanelet_pt
             then Returned ([], Planner.ValidInParkingLot)
        else Returned ([], Planner.NotValid)
    end.

Definition is_goal_valid (self : DefaultPlanner W) (fuel : nat) (goal : Pose)
    (path_lanelets : list Lanelet) : Outcome (list Warning * bool) :=
  r <- is_goal_valid_at self fuel goal path_lanelets ;;
  Returned (fst r, Planner.accepted (snd r)).

(** The call of line 337 reads past the end of the ring: the shoulder rule
    has not accepted, a closest road lanelet is found, and the ring has
    fewer than six vertices. *)
Definition reads_past_footprint (self : DefaultPlanner W) (goal : Pose) : Prop :=
  on_shoulder self goal = false /\
  (exists closest_lanelet, Planner.find_closest_road_lanelet self goal = Some closest_lanelet) /\
  (length (goal_footprint self goal) < 6)%nat.

Definition plan (fuel : nat) (self : DefaultPlanner W) (points : list Pose)
  : Outcome (Planner.PlanExit W) :=
  let route_msg := empty_route in
  match Planner.plan_route_lanelets self points [] with
  | None => Returned (Planner.mkExit self [FailedToPlanRoute] route_msg)
  | Some all_route_lanelets =>
      let self := Planner.with_route_lanelets self all_route_lanelets in
      let route_sections := createMapSegments W (route_handler_ self) all_route_lanelets in
      goal_pose <- of_option (Planner.back points) ;;
      goal_pose <- Planner.select_goal_pose self goal_pose ;;
      valid <- is_goal_valid self fuel goal_pose all_route_lanelets ;;
      if negb (snd valid)
      then Returned (Planner.mkExit self (fst valid ++ [GoalIsNotValid]) route_msg)
      else if isRouteLooped W (route_handler_ self) route_sections
      then Returned (Planner.mkExit self (fst valid ++ [LoopDetected]) route_msg)
      else
        refined_goal <- Planner.refine_goal_height self goal_pose route_sections ;;
        start <- of_option (Planner.front points) ;;
        Returned (Planner.mkExit self (fst valid) (mkRoute start refined_goal route_sections))
  end.

End WithCollaborators.
End WithMarker.

(** Further inputs on the test map. *)

Module TestInputs.
Import TestMap.

(** Far from the road, at the same distance from the four lanelets. *)
Definition far_away : Pose := pose_at 50 200 0.

(** The hexagon of a vehicle footprint, with its closing vertex. *)
Definition hexagon : BasicPolygon2d :=
  [mkPoint2d 3 1; mkPoint2d 3 0; mkPoint2d 3 (-1);
   mkPoint2d (-1) (-1); mkPoint2d (-1) 0; mkPoint2d (-1) 1; mkPoint2d 3 1].

(** A shoulder lanelet beside [lane_a], and the test map with it. *)
Definition shoulder : Lanelet :=
  mkLanelet 9 (rect 0 4 5 6) [mkPoint3d 0 5 0; mkPoint3d 5 5 0].

Definition world_with_shoulder : Collaborators :=
  {| RH := RH world;
     within := within world;
     distance := distance world;
     project := project world;
     distance2d_bbox := distance2d_bbox world;
     distance2d := distance2d world;
     lineStringWithWidthToPolygon := lineStringWithWidthToPolygon world;
     generateFineCenterline := generateFineCenterline world;
     generateFineCenterline_resolution := generateFineCenterline_resolution world;
     getLaneletLength2d := getLaneletLength2d world;
     getLaneletAngle := getLaneletAngle world;
     getClosestLanelet := getClosestLanelet world;
     getClosestLaneletWithConstrains := getClosestLaneletWithConstrains world;
     getYaw := getYaw world;
     normalizeRadian := normalizeRadian world;
     deg2rad := deg2rad world;
     sin := sin world;
     cos := cos world;
     findNearestIndex := findNearestIndex world;
     convertCenterlineToPoints := convertCenterlineToPoints world;
     convertBasicPoint3dToPose := convertBasicPoint3dToPose world;
     convert_linear_ring_to_polygon := convert_linear_ring_to_polygon world;
     combine_lanelets_with_shoulder := combine_lanelets_with_shoulder world;
     default_search_margin := default_search_margin world;
     createFootprint := createFootprint world;
     transformVector := transformVector world;
     getNextLanelets := getNextLanelets world;
     getShoulderLaneletsAtPose := fun _ p => filter (fun l => contains_pose l p) [shoulder];
     getRoadLaneletsAtPose := getRoadLaneletsAtPose world;
     isRoadLanelet := isRoadLanelet world;
     laneletLayer := laneletLayer world;
     nearestUntil := nearestUntil world;
     getAllParkingSpaces := getAllParkingSpaces world;
     getAllParkingLots := getAllParkingLots world;
     getLaneletsFromId := getLaneletsFromId world;
     planPathLaneletsBetweenCheckpoints := planPathLaneletsBetweenCheckpoints world;
     setRouteLanelets := setRouteLanelets world;
     createMapSegments := createMapSegments world;
     isRouteLooped := isRouteLooped world |}.

Definition planner_with_shoulder : DefaultPlanner world_with_shoulder :=
  mkPlanner world_with_shoulder [] (mkVehicleInfo 3 1 1) (mkParam 10 false false true).

(** On the shoulder, along the lane. *)
Definition on_shoulder : Pose := pose_at 2 5 0.

(** On [lane_c], so close to its end that the vehicle reaches beyond it. *)
Definition at_end_of_c : Pose := pose_at 14 2 0.

(** The test map with a vehicle footprint of six vertices and the closing one. *)
Definition world_with_hexagon : Collaborators :=
  {| RH := RH world;
     within := within world;
     distance := distance world;
     project := project world;
     distance2d_bbox := distance2d_bbox world;
     distance2d := distance2d world;
     lineStringWithWidthToPolygon := lineStringWithWidthToPolygon world;
     generateFineCenterline := generateFineCenterline world;
     generateFineCenterline_resolution := generateFineCenterline_resolution world;
     getLaneletLength2d := getLaneletLength2d world;
     getLaneletAngle := getLaneletAngle world;
     getClosestLanelet := getClosestLanelet world;
     getClosestLaneletWithConstrains := getClosestLaneletWithConstrains world;
     getYaw := getYaw world;
     normalizeRadian := normalizeRadian world;
     deg2rad := deg2rad world;
     sin := sin world;
     cos := cos world;
     findNearestIndex := findNearestIndex world;
     convertCenterlineToPoints := convertCenterlineToPoints world;
     convertBasicPoint3dToPose := convertBasicPoint3dToPose world;
     convert_linear_ring_to_polygon := convert_linear_ring_to_polygon world;
     combine_lanelets_with_shoulder := combine_lanelets_with_shoulder world;
     default_search_margin := default_search_margin world;
     createFootprint := fun vi =>
       [mkPoint2d (max_longitudinal_offset_m vi) 1; mkPoint2d (max_longitudinal_offset_m vi) 0;
        mkPoint2d (max_longitudinal_offset_m vi) (-1); mkPoint2d (-1) (-1);
        mkPoint2d (-1) 0; mkPoint2d (-1) 1; mkPoint2d (max_longitudinal_offset_m vi) 1];
     transformVector := transformVector world;
     getNextLanelets := getNextLanelets world;
     getShoulderLaneletsAtPose := getShoulderLaneletsAtPose world;
     getRoadLaneletsAtPose := getRoadLaneletsAtPose world;
     isRoadLanelet := isRoadLanelet world;
     laneletLayer := laneletLayer world;
     nearestUntil := nearestUntil world;
     getAllParkingSpaces := getAllParkingSpaces world;
     getAllParkingLots := getAllParkingLots world;
     getLaneletsFromId := getLaneletsFromId world;
     planPathLaneletsBetweenCheckpoints := planPathLaneletsBetweenCheckpoints world;
     setRouteLanelets := setRouteLanelets world;
     createMapSegments := createMapSegments world;
     isRouteLooped := isRouteLooped world |}.

Definition planner_with_hexagon (check_footprint : bool) : DefaultPlanner world_with_hexagon :=
  mkPlanner world_with_hexagon [] (mkVehicleInfo 3 1 1) (mkParam 10 false false check_footprint).

(** Doubles: a reach of 3 m, a margin of 2 m, and lanelet lengths of 5 m
    but for [lane_b], which is 0.1 m long (the double nearest to 0.1). *)
Module Doubles.
Import PrimFloat.
Definition zero : float := 0%float.
Definition two : float := 2%float.
Definition three : float := 3%float.
Definition five : float := 5%float.
Definition tenth : float := 0x1.999999999999ap-4%float.
Definition lengths (l : Lanelet) : float := if Z.eqb (id l) 2 then tenth else five.
End Doubles.

(** A route of two sections; the second has a neighbour beside the preferred lanelet. *)
Definition two_sections : LaneletRoute :=
  mkRoute on_a on_b [mkSegment 1 [1%Z]; mkSegment 2 [3%Z; 2%Z]].

End TestInputs.

Import Planner.

(** * Properties *)

Lemma bind_returned (A B : Type) (m : Outcome A) (k : A -> Outcome B) (b : B) :
  bind m k = Returned b -> exists a, m = Returned a /\ k a = Returned b.
Proof.
  destruct m as [a| |]; simpl; intro H; try discriminate. exists a. split; [reflexivity|exact H].
Qed.

Ltac bind_inv H :=
  let a := fresh "r" in
  let Ha := fresh "Hr" in
  apply bind_returned in H; destruct H as [a [Ha H]].

Lemma Qltb_lt (a b : Q) : Qltb a b = true <-> a < b.
Proof.
  unfold Qltb. rewrite negb_true_iff. split; intro H.
  - apply Qnot_le_lt. intro Hle. apply Qle_bool_iff in Hle. congruence.
  - destruct (Qle_bool b a) eqn:E; [|reflexivity].
    apply Qle_bool_iff in E. exfalso. exact (Qlt_not_le _ _ H E).
Qed.

Lemma Qltb_ge (a b : Q) : Qltb a b = false <-> b <= a.
Proof.
  unfold Qltb. rewrite negb_false_iff. apply Qle_bool_iff.
Qed.

(** ** Containment search *)

Section SearchProperties.

Variable W : Collaborators.
Variable self : DefaultPlanner W.
Variable goal_footprint : BasicPolygon2d.

Lemma visit_next_lane_restores deeper combined_prev search_margin next_lane len len' :
  restores deeper ->
  visit_next_lane self goal_footprint deeper combined_prev search_margin next_lane len
    = Returned (false, len') ->
  len' == len.
Proof.
  intros Hd. unfold visit_next_lane.
  destruct (long_enough _ _ _).
  - unfold test_containment. destruct (within _ _ _); intro H; inversion H. ring.
  - unfold search_deeper. intro H. bind_inv H. destruct r as [[|] l]; inversion H.
    apply Hd in Hr. rewrite Hr. ring.
Qed.

Lemma search_following_restores deeper combined_prev search_margin following :
  restores deeper ->
  forall len len',
    search_following self goal_footprint deeper combined_prev search_margin following len
      = Returned (false, len') ->
    len' == len.
Proof.
  intro Hd. induction following as [|next_lane rest IH]; simpl; intros len len' H.
  - inversion H. reflexivity.
  - bind_inv H. destruct r as [[|] l]; [discriminate|].
    apply visit_next_lane_restores in Hr; [|exact Hd].
    apply IH in H. rewrite H. exact Hr.
Qed.

(** Over the exact rationals of [Planner], a call of
    [check_goal_footprint_inside_lanes] that returns false hands the length
    back equal to its value at entry. *)
Theorem check_goal_footprint_inside_lanes_false_restores_length :
  forall (fuel : nat) (current_lanelet combined_prev_lanelet : Lanelet)
         (next_lane_length search_margin next_lane_length' : Q),
    check_goal_footprint_inside_lanes self goal_footprint fuel current_lanelet
      combined_prev_lanelet next_lane_length search_margin
      = Returned (false, next_lane_length') ->
    next_lane_length' == next_lane_length.
Proof.
  induction fuel as [|fuel IH]; simpl; intros cur comb len margin len' H.
  - discriminate.
  - destruct (within _ _ _); [discriminate|].
    eapply search_following_restores; [|exact H].
    intros nl c l l' Hrec. eapply IH. exact Hrec.
Qed.

(** C6: a footprint within the accumulated polygon makes the search succeed
    at its first test, with the length untouched, whatever lanelets follow;
    and a candidate whose combined polygon holds the footprint succeeds
    whether the chain is tested there or extended first. *)
Theorem check_goal_footprint_inside_lanes_contained_succeeds :
  forall (combined_prev_lanelet : Lanelet),
    within W goal_footprint (polygon2d combined_prev_lanelet) = true ->
    (forall fuel current_lanelet next_lane_length search_margin,
        check_goal_footprint_inside_lanes self goal_footprint (S fuel) current_lanelet
          combined_prev_lanelet next_lane_length search_margin
          = Returned (true, next_lane_length)) /\
    (forall fuel prev next_lane next_lane_length search_margin,
        combine_lanelets_with_shoulder W (route_handler_ self) [prev; next_lane]
          = combined_prev_lanelet ->
        exists l,
          visit_next_lane self goal_footprint
            (fun nl c len =>
               check_goal_footprint_inside_lanes self goal_footprint (S fuel) nl c len
                 (default_search_margin W))
            prev search_margin next_lane next_lane_length = Returned (true, l)).
Proof.
  intros comb Hin. split.
  - intros fuel cur len margin. simpl. rewrite Hin. reflexivity.
  - intros fuel prev next_lane len margin Hc. unfold visit_next_lane. rewrite Hc.
    destruct (long_enough _ _ _).
    + unfold test_containment. rewrite Hin. eexists. reflexivity.
    + unfold search_deeper. simpl. rewrite Hin. simpl. eexists. reflexivity.
Qed.

(** C2 (amended): for a candidate following lanelet the search goes one
    level deeper exactly when the accumulated length, the candidate's
    included, is at most the vehicle's maximum longitudinal offset plus the
    search margin; otherwise it tests the footprint against the combined
    polygon, with the candidate's length taken off again, and succeeds if
    it is contained. *)
Theorem visit_next_lane_recurses_iff_not_long_enough :
  forall (deeper : Lanelet -> Lanelet -> Q -> Outcome (bool * Q))
         (combined_prev_lanelet next_lane : Lanelet) (search_margin next_lane_length : Q),
    let accumulated := next_lane_length + getLaneletLength2d W next_lane in
    let combined_lanelets :=
      combine_lanelets_with_shoulder W (route_handler_ self)
        [combined_prev_lanelet; next_lane] in
    let reach := max_longitudinal_offset_m (vehicle_info_ self) + search_margin in
    (accumulated <= reach ->
     visit_next_lane self goal_footprint deeper combined_prev_lanelet search_margin
       next_lane next_lane_length
       = search_deeper W deeper combined_lanelets next_lane accumulated) /\
    (reach < accumulated ->
     visit_next_lane self goal_footprint deeper combined_prev_lanelet search_margin
       next_lane next_lane_length
       = test_containment W goal_footprint combined_lanelets next_lane accumulated /\
     (within W goal_footprint (polygon2d combined_lanelets) = true ->
      visit_next_lane self goal_footprint deeper combined_prev_lanelet search_margin
        next_lane next_lane_length
        = Returned (true, accumulated - getLaneletLength2d W next_lane))).
Proof.
  intros deeper comb next_lane margin len accumulated combined reach. split.
  - intro Hle. unfold visit_next_lane, long_enough.
    apply Qltb_ge in Hle. fold accumulated. fold reach. rewrite Hle. reflexivity.
  - intro Hlt. unfold visit_next_lane, long_enough.
    apply Qltb_lt in Hlt. fold accumulated. fold reach. rewrite Hlt. split; [reflexivity|].
    intro Hin. unfold test_containment. fold combined. rewrite Hin. reflexivity.
Qed.

End SearchProperties.

(** ** Goal validator *)

Section ValidatorProperties.

Variable W : Collaborators.
Variable self : DefaultPlanner W.

Lemma footprint_exceeds_lane_when_search_fails fuel goal closest combined len :
  check_footprint_inside_lanes (param_ self) = true ->
  check_goal_footprint_inside_lanes self (goal_polygon_footprint self goal) fuel
    closest combined 0 (default_search_margin W) = Returned (false, len) ->
  footprint_exceeds_lane self fuel goal closest combined
    = Returned (negb (is_in_parking_lot W (getAllParkingLots W (route_handler_ self))
                        (position goal))).
Proof.
  intros Hen Hs. unfold footprint_exceeds_lane. rewrite Hen, Hs. reflexivity.
Qed.

(** C1: with the footprint check enabled and the containment search of
    step 3 failing, [is_goal_valid] rejects the goal only if its point is in
    no parking lot; a goal in a parking lot that is on no lane (no shoulder
    lanelet at its pose, not in the closest road lanelet) and in no parking
    space is accepted by the parking-lot rule. *)
Theorem is_goal_valid_parking_lot_overrides_footprint :
  forall (fuel : nat) (goal : Pose) (path_lanelets : list Lanelet)
         (closest_lanelet : Lanelet) (len : Q),
    check_footprint_inside_lanes (param_ self) = true ->
    find_closest_road_lanelet self goal = Some closest_lanelet ->
    check_goal_footprint_inside_lanes self (goal_polygon_footprint self goal) fuel
      closest_lanelet
      (combine_lanelets_with_shoulder W (route_handler_ self) path_lanelets)
      0 (default_search_margin W) = Returned (false, len) ->
    let in_lot :=
      is_in_parking_lot W (getAllParkingLots W (route_handler_ self)) (position goal) in
    (forall w, is_goal_valid self fuel goal path_lanelets = Returned (w, false) ->
               in_lot = false) /\
    (in_lot = true ->
     getClosestLanelet W (getShoulderLaneletsAtPose W (route_handler_ self) goal) goal = None ->
     is_in_lane W closest_lanelet (position goal) = false ->
     is_in_parking_space W (getAllParkingSpaces W (route_handler_ self)) (position goal)
       = false ->
     is_goal_valid_at self fuel goal path_lanelets = Returned ([], ValidInParkingLot) /\
     is_goal_valid self fuel goal path_lanelets = Returned ([], true)).
Proof.
  intros fuel goal path cl len Hen Hcl Hs in_lot.
  pose proof (footprint_exceeds_lane_when_search_fails _ _ _ _ Hen Hs) as Hex.
  fold in_lot in Hex. split.
  - intros w H. destruct in_lot eqn:Hlot; [exfalso|reflexivity].
    unfold is_goal_valid, is_goal_valid_at in H.
    destruct (match getClosestLanelet W _ goal with Some _ => _ | None => _ end).
    + simpl in H. discriminate.
    + rewrite Hcl, Hex in H. simpl in H.
      destruct (on_lane_rule _ _ _); [simpl in H; discriminate|].
      destruct (is_in_parking_space _ _ _); [simpl in H; discriminate|].
      subst in_lot. rewrite Hlot in H. simpl in H. discriminate.
  - intros Hlot Hsh Hlane Hspace.
    assert (Hat : is_goal_valid_at self fuel goal path = Returned ([], ValidInParkingLot)).
    { unfold is_goal_valid_at. rewrite Hsh, Hcl, Hex, Hlot. simpl.
      unfold on_lane_rule. rewrite Hlane, Hspace.
      subst in_lot. rewrite Hlot. reflexivity. }
    split; [exact Hat|]. unfold is_goal_valid. rewrite Hat. reflexivity.
Qed.

(** C7: for a goal on the closest lanelet, the on-lane rule accepts exactly
    when the absolute value of the normalised difference between the lane
    direction and the goal heading is strictly below the tolerance; and when
    [is_goal_valid] gets as far as that rule, it leaves by it exactly then. *)
Theorem on_lane_rule_iff_strictly_within_tolerance :
  forall (goal : Pose) (closest_lanelet : Lanelet),
    is_in_lane W closest_lanelet (position goal) = true ->
    let diff :=
      normalizeRadian W
        (getLaneletAngle W closest_lanelet (position goal) - getYaw W (orientation goal)) in
    let tolerance := deg2rad W (goal_angle_threshold_deg (param_ self)) in
    (on_lane_rule self closest_lanelet goal = true <-> Qabs diff < tolerance) /\
    (on_lane_rule self closest_lanelet goal = false <-> tolerance <= Qabs diff) /\
    (forall fuel path_lanelets w v,
        find_closest_road_lanelet self goal = Some closest_lanelet ->
        is_goal_valid_at self fuel goal path_lanelets = Returned (w, v) ->
        v <> ValidOnShoulder -> v <> FootprintOutside ->
        (v = ValidOnLane <-> Qabs diff < tolerance)).
Proof.
  intros goal cl Hlane diff tolerance.
  assert (Hrule : on_lane_rule self cl goal = Qltb (Qabs diff) tolerance).
  { unfold on_lane_rule. rewrite Hlane. reflexivity. }
  split; [rewrite Hrule; apply Qltb_lt|].
  split; [rewrite Hrule; apply Qltb_ge|].
  intros fuel path w v Hcl H Hns Hnf.
  rewrite <- Qltb_lt, <- Hrule.
  unfold is_goal_valid_at in H.
  destruct (match getClosestLanelet W _ goal with Some _ => _ | None => _ end).
  - inversion H. congruence.
  - rewrite Hcl in H. bind_inv H. destruct r.
    + inversion H. congruence.
    + destruct (on_lane_rule self cl goal).
      * inversion H. split; reflexivity.
      * split; [|discriminate]. intro Hv. subst v.
        destruct (is_in_parking_space _ _ _); [discriminate|].
        destruct (is_in_parking_lot _ _ _); discriminate.
Qed.

(** A goal [is_goal_valid] accepts is accepted without a warning. *)
Lemma is_goal_valid_true_no_warning fuel goal path w :
  is_goal_valid self fuel goal path = Returned (w, true) -> w = [].
Proof.
  unfold is_goal_valid. intro H. bind_inv H. destruct r as [w' v]. simpl in H.
  inversion H; subst. clear H. unfold is_goal_valid_at in Hr.
  destruct (match getClosestLanelet W _ goal with Some _ => _ | None => _ end).
  - inversion Hr. reflexivity.
  - destruct (find_closest_road_lanelet self goal); [|inversion Hr; subst; discriminate].
    bind_inv Hr. destruct r.
    + inversion Hr; subst. discriminate.
    + destruct (on_lane_rule _ _ _); [inversion Hr; reflexivity|].
      destruct (is_in_parking_space _ _ _); [inversion Hr; reflexivity|].
      destruct (is_in_parking_lot _ _ _); inversion Hr; reflexivity.
Qed.

(** ** Height refinement *)

Lemma back_nil_iff (A : Type) (l : list A) : back l = None <-> l = [].
Proof.
  unfold back. split; [|intros ->; reflexivity].
  induction l as [|a [|b t] IH]; [reflexivity|discriminate|].
  intro H. exfalso. change (last (map Some (b :: t)) None = None) in H.
  apply IH in H. discriminate.
Qed.

(** C9: a goal whose elevation already is that of its projection onto the
    centerline of the last section's preferred lanelet is left as it is by
    [refine_goal_height], so refining it twice is refining it once. *)
Theorem refine_goal_height_fixes_corrected_goal :
  forall (goal : Pose) (route_sections : RouteSections) (last_section : LaneletSegment),
    back route_sections = Some last_section ->
    pt_z (position goal)
      = project_goal_to_map W
          (getLaneletsFromId W (route_handler_ self) (preferred_primitive last_section))
          (position goal) ->
    refine_goal_height self goal route_sections = Returned goal /\
    (refined <- refine_goal_height self goal route_sections ;;
     refine_goal_height self refined route_sections)
    = refine_goal_height self goal route_sections.
Proof.
  intros goal secs s Hb Hz.
  assert (H : refine_goal_height self goal secs = Returned goal).
  { unfold refine_goal_height. rewrite Hb. simpl. rewrite <- Hz.
    destruct goal as [[gx gy gz] o]. reflexivity. }
  split; [exact H|]. rewrite H. simpl. exact H.
Qed.

Lemma refine_goal_height_out_of_bounds goal route_sections :
  refine_goal_height self goal route_sections = OutOfBounds <-> route_sections = [].
Proof.
  unfold refine_goal_height. split.
  - intro H. apply back_nil_iff. destruct (back route_sections); [discriminate|reflexivity].
  - intros ->. reflexivity.
Qed.

End ValidatorProperties.

(** ** Route composer *)

Lemma back_snoc (A : Type) (l : list A) (x : A) : back (l ++ [x]) = Some x.
Proof.
  unfold back. rewrite map_app. simpl. apply last_last.
Qed.

Lemma snoc_cases (A : Type) (l : list A) : l = [] \/ exists l' y, l = l' ++ [y].
Proof.
  destruct l as [|a t]; [left; reflexivity|right].
  destruct (exists_last (l := a :: t)) as [l' [y E]]; [discriminate|].
  exists l', y. exact E.
Qed.

Lemma back_map (A B : Type) (f : A -> B) (l : list A) :
  back (map f l) = option_map f (back l).
Proof.
  destruct (snoc_cases l) as [->|[l' [y ->]]]; [reflexivity|].
  rewrite map_app. simpl map. rewrite !back_snoc. reflexivity.
Qed.

Lemma adjacent_ids_differ_snoc (ids : list Z) (x : Z) :
  adjacent_ids_differ ids ->
  (forall y, back ids = Some y -> y <> x) ->
  adjacent_ids_differ (ids ++ [x]).
Proof.
  intros Hadj Hback i a b Ha Hb.
  destruct (Nat.lt_ge_cases (S i) (length ids)) as [Hlt|Hge].
  - rewrite nth_error_app1 in Ha by lia. rewrite nth_error_app1 in Hb by lia.
    exact (Hadj i a b Ha Hb).
  - rewrite nth_error_app2 in Hb by lia.
    destruct (S i - length ids)%nat as [|k] eqn:Ek.
    + simpl in Hb. inversion Hb; subst b. apply Hback.
      destruct (snoc_cases ids) as [->|[l' [y ->]]]; [simpl in Ek; lia|].
      rewrite back_snoc. rewrite length_app in Ek, Hge.
      change (length [y]) with 1%nat in Ek, Hge.
      rewrite <- app_assoc in Ha. rewrite nth_error_app2 in Ha by lia.
      replace (i - length l')%nat with O in Ha by lia. simpl in Ha. congruence.
    + simpl in Hb. destruct k; discriminate.
Qed.

Lemma adjacent_ids_differ_nil : adjacent_ids_differ [].
Proof.
  intros i a b Ha. destruct i; discriminate.
Qed.

Lemma append_path_adjacent_ids_differ (path all : list Lanelet) :
  adjacent_ids_differ (map id all) ->
  adjacent_ids_differ (map id (append_path path all)).
Proof.
  revert all. induction path as [|lane rest IH]; simpl; intros all Hadj; [exact Hadj|].
  destruct (repeats_back all lane) eqn:E; [apply IH; exact Hadj|].
  apply IH. rewrite map_app. simpl. apply adjacent_ids_differ_snoc; [exact Hadj|].
  intros y Hy. rewrite back_map in Hy. unfold repeats_back in E.
  destruct (back all) as [b|]; [|discriminate]. simpl in Hy. inversion Hy; subst y.
  apply Z.eqb_neq in E. congruence.
Qed.

Lemma plan_route_lanelets_step (W : Collaborators) (self : DefaultPlanner W)
    (p q : Pose) (t : list Pose) (all : list Lanelet) :
  plan_route_lanelets self (p :: q :: t) all =
  match planPathLaneletsBetweenCheckpoints W (route_handler_ self) p q
          (consider_no_drivable_lanes (param_ self)) with
  | None => None
  | Some path_lanelets => plan_route_lanelets self (q :: t) (append_path path_lanelets all)
  end.
Proof.
  reflexivity.
Qed.

Lemma plan_route_lanelets_adjacent_ids_differ (W : Collaborators) (self : DefaultPlanner W)
    (points : list Pose) :
  forall all all',
    adjacent_ids_differ (map id all) ->
    plan_route_lanelets self points all = Some all' ->
    adjacent_ids_differ (map id all').
Proof.
  induction points as [|p t IH]; intros all all' Hadj H.
  - inversion H; subst. exact Hadj.
  - destruct t as [|q t].
    + inversion H; subst. exact Hadj.
    + rewrite plan_route_lanelets_step in H.
      destruct (planPathLaneletsBetweenCheckpoints _ _ _ _ _) as [path|]; [|discriminate].
      eapply IH; [|exact H]. apply append_path_adjacent_ids_differ. exact Hadj.
Qed.

(** C8: the lanelet sequence [plan] accumulates has no two neighbours of
    equal id, whatever the per-pair results are; a lanelet whose id is that
    of the last lanelet accumulated is skipped, as the first lanelet of a
    result that repeats the last of the one before it. *)
Theorem plan_route_lanelets_no_adjacent_duplicate :
  (forall results : list (list Lanelet), adjacent_ids_differ (map id (merge_paths results))) /\
  (forall (W : Collaborators) (self : DefaultPlanner W) (points : list Pose) all,
      plan_route_lanelets self points [] = Some all -> adjacent_ids_differ (map id all)) /\
  (forall (all rest : list Lanelet) (last_lane lane : Lanelet),
      id lane = id last_lane ->
      append_path (lane :: rest) (all ++ [last_lane]) = append_path rest (all ++ [last_lane])).
Proof.
  split; [|split].
  - intro results. unfold merge_paths.
    assert (H : forall acc, adjacent_ids_differ (map id acc) ->
                adjacent_ids_differ
                  (map id (fold_left (fun a p => append_path p a) results acc))).
    { induction results as [|path rest IH]; simpl; intros acc Hacc; [exact Hacc|].
      apply IH. apply append_path_adjacent_ids_differ. exact Hacc. }
    apply H. apply adjacent_ids_differ_nil.
  - intros W self points all H.
    eapply plan_route_lanelets_adjacent_ids_differ; [|exact H].
    apply adjacent_ids_differ_nil.
  - intros all rest last_lane lane E. simpl. unfold repeats_back.
    rewrite back_snoc, E, Z.eqb_refl. reflexivity.
Qed.

Lemma plan_route_lanelets_no_path (W : Collaborators) (self : DefaultPlanner W)
    (pre : list Pose) :
  forall start goal post all,
    planPathLaneletsBetweenCheckpoints W (route_handler_ self) start goal
      (consider_no_drivable_lanes (param_ self)) = None ->
    plan_route_lanelets self (pre ++ start :: goal :: post) all = None.
Proof.
  induction pre as [|p pre IH]; intros start goal post all Hnone.
  - simpl app. rewrite plan_route_lanelets_step, Hnone. reflexivity.
  - assert (E : exists q t, pre ++ start :: goal :: post = q :: t).
    { destruct pre; simpl; eauto. }
    destruct E as [q [t E]]. simpl app. rewrite E, plan_route_lanelets_step.
    destruct (planPathLaneletsBetweenCheckpoints W (route_handler_ self) p q _);
      [|reflexivity].
    rewrite <- E. apply IH. exact Hnone.
Qed.

(** C4: when the path search fails for some consecutive pair of
    checkpoints, when the goal is not valid, and when the route is looped,
    [plan] returns the empty route, which carries no segment of the pairs
    already processed; on a path failure it returns at once, the planner
    untouched and the goal never examined. *)
Theorem plan_failure_returns_empty_route :
  forall (W : Collaborators) (fuel : nat) (self : DefaultPlanner W) (points : list Pose)
         (kind : Warning),
    plan_failure fuel self points kind ->
    exists e,
      plan fuel self points = Returned e /\
      returned e = empty_route /\
      segments (returned e) = [] /\
      (exists w, warnings e = w ++ [kind]) /\
      (kind = FailedToPlanRoute -> e = mkExit self [FailedToPlanRoute] empty_route).
Proof.
  intros W fuel self points kind Hf. destruct Hf as
      [pre start goal post Hpts Hnone
      | all last_point goal w Hall Hback Hsel Hvalid
      | all last_point goal w Hall Hback Hsel Hvalid Hloop].
  - exists (mkExit self [FailedToPlanRoute] empty_route). unfold plan. subst points.
    rewrite plan_route_lanelets_no_path by exact Hnone.
    split; [reflexivity|]. split; [reflexivity|]. split; [reflexivity|].
    split; [exists []; reflexivity|reflexivity].
  - eexists. unfold plan. rewrite Hall, Hback. cbn [of_option bind]. rewrite Hsel.
    cbn [bind]. rewrite Hvalid. cbn [bind snd fst negb].
    split; [reflexivity|]. split; [reflexivity|]. split; [reflexivity|].
    split; [exists w; reflexivity|discriminate].
  - eexists. unfold plan. rewrite Hall, Hback. cbn [of_option bind]. rewrite Hsel.
    cbn [bind]. rewrite Hvalid. cbn [bind snd fst negb]. rewrite Hloop.
    split; [reflexivity|]. split; [reflexivity|]. split; [reflexivity|].
    split; [exists w; reflexivity|discriminate].
Qed.

Lemma plan_route_lanelets_none (W : Collaborators) (self : DefaultPlanner W)
    (points : list Pose) :
  forall all,
    plan_route_lanelets self points all = None ->
    exists pre start goal post,
      points = pre ++ start :: goal :: post /\
      planPathLaneletsBetweenCheckpoints W (route_handler_ self) start goal
        (consider_no_drivable_lanes (param_ self)) = None.
Proof.
  induction points as [|p t IH]; intros all H; [discriminate|].
  destruct t as [|q t]; [discriminate|].
  rewrite plan_route_lanelets_step in H.
  destruct (planPathLaneletsBetweenCheckpoints W (route_handler_ self) p q _) eqn:E.
  - apply IH in H. destruct H as [pre [start [goal [post [Hp Hn]]]]].
    exists (p :: pre), start, goal, post. split; [simpl; rewrite Hp; reflexivity|exact Hn].
  - exists [], p, q, t. split; [reflexivity|exact E].
Qed.

(** C3 (amended): a call of [plan] that returns either returns the route
    assembled from the first checkpoint, the validated and height-refined
    goal and the sections of the merged path, without a warning, or returns
    the empty route; the empty route is the value returned for each of the
    three failures, which only the warning logged tells apart. *)
Theorem plan_returns_route_or_empty_route :
  forall (W : Collaborators) (fuel : nat) (self : DefaultPlanner W) (points : list Pose)
         (e : PlanExit W),
    plan fuel self points = Returned e ->
    (exists all last_point goal refined start,
        let planner := with_route_lanelets self all in
        let route_sections := createMapSegments W (route_handler_ planner) all in
        plan_route_lanelets self points [] = Some all /\
        back points = Some last_point /\
        select_goal_pose planner last_point = Returned goal /\
        is_goal_valid planner fuel goal all = Returned ([], true) /\
        isRouteLooped W (route_handler_ planner) route_sections = false /\
        refine_goal_height planner goal route_sections = Returned refined /\
        front points = Some start /\
        e = mkExit planner [] (mkRoute start refined route_sections)) \/
    (returned e = empty_route /\
     exists kind w, plan_failure fuel self points kind /\ warnings e = w ++ [kind]).
Proof.
  intros W fuel self points e H. unfold plan in H.
  destruct (plan_route_lanelets self points []) as [all|] eqn:Hall.
  - bind_inv H. rename r into last_point.
    assert (Hback : back points = Some last_point).
    { destruct (back points); simpl in Hr; inversion Hr; reflexivity. }
    bind_inv H. rename r into goal. rename Hr0 into Hsel.
    bind_inv H. destruct r as [w valid]. rename Hr0 into Hvalid. cbn [fst snd] in H.
    destruct valid; cbn [negb] in H.
    + pose proof (is_goal_valid_true_no_warning _ _ _ _ Hvalid) as Hw. subst w.
      destruct (isRouteLooped W _ _) eqn:Hloop.
      * right. inversion H; subst e. split; [reflexivity|].
        exists LoopDetected, []. split; [|reflexivity].
        eapply fails_looped; eassumption.
      * left. bind_inv H. rename r into refined. bind_inv H. rename r into start.
        exists all, last_point, goal, refined, start. cbv zeta.
        split; [reflexivity|]. repeat (split; [eassumption|]).
        split; [destruct (front points); simpl in Hr1; inversion Hr1; reflexivity|].
        inversion H. reflexivity.
    + right. inversion H; subst e. split; [reflexivity|].
      exists GoalIsNotValid, w. split; [|reflexivity].
      eapply fails_invalid_goal; eassumption.
  - right. inversion H; subst e. split; [reflexivity|].
    exists FailedToPlanRoute, []. split; [|reflexivity].
    apply plan_route_lanelets_none in Hall.
    destruct Hall as [pre [start [goal [post [Hp Hn]]]]].
    eapply fails_no_path; eassumption.
Qed.

Lemma append_path_keeps_nonempty (path all : list Lanelet) :
  all <> [] -> append_path path all <> [].
Proof.
  revert all. induction path as [|lane rest IH]; simpl; intros all Hne; [exact Hne|].
  destruct (repeats_back all lane); apply IH; [exact Hne|].
  destruct all; discriminate.
Qed.

Lemma append_path_of_nonempty (path all : list Lanelet) :
  path <> [] -> append_path path all <> [].
Proof.
  destruct path as [|lane rest]; [congruence|]. intros _.
  destruct all as [|a all].
  - simpl. apply append_path_keeps_nonempty. discriminate.
  - apply append_path_keeps_nonempty. discriminate.
Qed.

Lemma plan_route_lanelets_connected (W : Collaborators) (self : DefaultPlanner W)
    (points : list Pose) :
  forall all,
    Forall (pair_has_path self) (checkpoint_pairs points) ->
    exists all', plan_route_lanelets self points all = Some all' /\
                 (all <> [] \/ (2 <= length points)%nat -> all' <> []).
Proof.
  induction points as [|p t IH]; intros all Hall.
  - exists all. split; [reflexivity|]. intros [H|H]; [exact H|simpl in H; lia].
  - destruct t as [|q t].
    + exists all. split; [reflexivity|]. intros [H|H]; [exact H|simpl in H; lia].
    + change (checkpoint_pairs (p :: q :: t))
        with ((p, q) :: checkpoint_pairs (q :: t)) in Hall.
      inversion Hall as [|pair rest [path [Hpath Hne]] Hrest]; subst.
      simpl in Hpath. rewrite plan_route_lanelets_step, Hpath.
      destruct (IH (append_path path all) Hrest) as [all' [Hrun Hall']].
      exists all'. split; [exact Hrun|]. intros _. apply Hall'. left.
      apply append_path_of_nonempty. exact Hne.
Qed.

(** C10: [refine_goal_height] reads [route_sections.back()] unguarded, so it
    is defined exactly on a non-empty [route_sections].  [plan] merges no
    lanelet at all from fewer than two checkpoints, and at least one when
    there are two or more and every pair is connected by a non-empty path.
    With a single checkpoint whose goal is valid and no section made of no
    lanelet, [plan] runs into the out-of-bounds read of
    [refine_goal_height]. *)
Theorem refine_goal_height_requires_route_sections :
  forall (W : Collaborators) (self : DefaultPlanner W),
    (forall goal route_sections,
        refine_goal_height self goal route_sections = OutOfBounds <-> route_sections = []) /\
    (forall points, (length points < 2)%nat -> plan_route_lanelets self points [] = Some []) /\
    (forall points,
        (2 <= length points)%nat ->
        Forall (pair_has_path self) (checkpoint_pairs points) ->
        exists all, plan_route_lanelets self points [] = Some all /\ all <> []) /\
    (forall fuel point goal w,
        let planner := with_route_lanelets self [] in
        let route_sections := createMapSegments W (route_handler_ planner) [] in
        route_sections = [] ->
        select_goal_pose planner point = Returned goal ->
        is_goal_valid planner fuel goal [] = Returned (w, true) ->
        isRouteLooped W (route_handler_ planner) route_sections = false ->
        refine_goal_height planner goal route_sections = OutOfBounds /\
        plan fuel self [point] = OutOfBounds).
Proof.
  intros W self. split; [|split; [|split]].
  - intros goal secs. apply refine_goal_height_out_of_bounds.
  - intros points Hlen. destruct points as [|p [|q t]]; try reflexivity. simpl in Hlen. lia.
  - intros points Hlen Hpairs.
    destruct (plan_route_lanelets_connected points [] Hpairs) as [all [Hrun Hne]].
    exists all. split; [exact Hrun|]. apply Hne. right. exact Hlen.
  - intros fuel point goal w planner route_sections Hsecs Hsel Hvalid Hloop.
    assert (Hoob : refine_goal_height planner goal route_sections = OutOfBounds).
    { apply refine_goal_height_out_of_bounds. exact Hsecs. }
    split; [exact Hoob|]. unfold plan. cbn [plan_route_lanelets back map last of_option bind].
    fold planner. rewrite Hsel. cbn [bind]. rewrite Hvalid. cbn [bind fst snd negb].
    fold route_sections. rewrite Hloop, Hoob. reflexivity.
Qed.

(** * The properties on the test map *)

Import TestMap.

(** The search finds no room for a footprint beside the road and hands the
    length back as it got it. *)
Lemma false_restores_length_witness :
  exists l,
    check_goal_footprint_inside_lanes planner stray_footprint 5 lane_a lane_a 0 2
      = Returned (false, l) /\ l == 0.
Proof.
  eexists. split; [vm_compute; reflexivity|].
  apply (@check_goal_footprint_inside_lanes_false_restores_length
           world planner stray_footprint 5 lane_a lane_a 0 2).
  vm_compute. reflexivity.
Defined.

(** A footprint inside [lane_a] is found at the first test. *)
Lemma contained_succeeds_witness :
  within world (goal_polygon_footprint planner on_a) (polygon2d lane_a) = true /\
  check_goal_footprint_inside_lanes planner (goal_polygon_footprint planner on_a) 1
    lane_a lane_a 0 2 = Returned (true, 0).
Proof.
  assert (H : within world (goal_polygon_footprint planner on_a) (polygon2d lane_a) = true)
    by (vm_compute; reflexivity).
  split; [exact H|].
  exact (proj1 (@check_goal_footprint_inside_lanes_contained_succeeds
                  world planner (goal_polygon_footprint planner on_a) lane_a H)
           O lane_a 0 2).
Defined.

(** With 3 m of reach and 2 m of margin, a chain of 5 m is extended. *)
Lemma recurses_iff_not_long_enough_witness :
  0 + getLaneletLength2d world lane_b <= 3 + 2 /\
  visit_next_lane planner long_footprint
    (fun nl c l => check_goal_footprint_inside_lanes planner long_footprint 3 nl c l 2)
    lane_a 2 lane_b 0
  = search_deeper world
      (fun nl c l => check_goal_footprint_inside_lanes planner long_footprint 3 nl c l 2)
      (combine_lanelets_with_shoulder world (route_handler_ planner) [lane_a; lane_b])
      lane_b (0 + getLaneletLength2d world lane_b).
Proof.
  assert (H : 0 + getLaneletLength2d world lane_b <= 3 + 2)
    by (vm_compute; discriminate).
  split; [exact H|].
  exact (proj1 (@visit_next_lane_recurses_iff_not_long_enough
                  world planner long_footprint
                  (fun nl c l =>
                     check_goal_footprint_inside_lanes planner long_footprint 3 nl c l 2)
                  lane_a lane_b 2 0) H).
Defined.

(** C2, as stated, fails: with 6 m of reach and 2 m of margin the chain of
    5 m has 5 + 2 < 6 false, so the claim has the footprint tested against
    [lane_a] and [lane_b], which do not hold it; the code extends the chain
    to [lane_c] and succeeds. *)
Lemma recurses_when_length_plus_margin_below_offset_counterexample :
  let self := planner_with 6 true in
  let deeper :=
    fun nl c l => check_goal_footprint_inside_lanes self long_footprint 3 nl c l 2 in
  let accumulated := 0 + getLaneletLength2d world lane_b in
  let combined := combine_lanelets_with_shoulder world (route_handler_ self) [lane_a; lane_b] in
  ~ ((accumulated + 2 < max_longitudinal_offset_m (vehicle_info_ self) ->
      visit_next_lane self long_footprint deeper lane_a 2 lane_b 0
        = search_deeper world deeper combined lane_b accumulated) /\
     (~ accumulated + 2 < max_longitudinal_offset_m (vehicle_info_ self) ->
      visit_next_lane self long_footprint deeper lane_a 2 lane_b 0
        = test_containment world long_footprint combined lane_b accumulated)).
Proof.
  intros self deeper accumulated combined [_ H].
  assert (Hn : ~ accumulated + 2 < max_longitudinal_offset_m (vehicle_info_ self))
    by (vm_compute; discriminate).
  specialize (H Hn). vm_compute in H. discriminate.
Qed.

(** The parking-lot goal, reached over [lane_a]. *)
Lemma parking_lot_overrides_footprint_witness :
  check_footprint_inside_lanes (param_ planner) = true /\
  find_closest_road_lanelet planner in_lot = Some lane_a /\
  (exists len,
      check_goal_footprint_inside_lanes planner (goal_polygon_footprint planner in_lot) 5
        lane_a (combine_lanelets_with_shoulder world (route_handler_ planner) [lane_a])
        0 (default_search_margin world) = Returned (false, len)) /\
  is_goal_valid_at planner 5 in_lot [lane_a] = Returned ([], ValidInParkingLot) /\
  is_goal_valid planner 5 in_lot [lane_a] = Returned ([], true).
Proof.
  assert (H1 : check_footprint_inside_lanes (param_ planner) = true) by reflexivity.
  assert (H2 : find_closest_road_lanelet planner in_lot = Some lane_a)
    by (vm_compute; reflexivity).
  assert (H3 : check_goal_footprint_inside_lanes planner
                 (goal_polygon_footprint planner in_lot) 5 lane_a
                 (combine_lanelets_with_shoulder world (route_handler_ planner) [lane_a])
                 0 (default_search_margin world) = Returned (false, 0))
    by (vm_compute; reflexivity).
  split; [exact H1|]. split; [exact H2|]. split; [exists 0; exact H3|].
  apply (proj2 (@is_goal_valid_parking_lot_overrides_footprint
                  world planner 5 in_lot [lane_a] lane_a 0 H1 H2 H3));
    vm_compute; reflexivity.
Defined.

(** A goal on [lane_b], 9.999 degrees off, with a tolerance of 10 degrees. *)
Lemma strictly_within_tolerance_witness :
  is_in_lane world lane_b (position on_b_inside) = true /\
  Qabs (normalizeRadian world
          (getLaneletAngle world lane_b (position on_b_inside)
           - getYaw world (orientation on_b_inside)))
  < deg2rad world (goal_angle_threshold_deg (param_ planner)).
Proof.
  assert (H : is_in_lane world lane_b (position on_b_inside) = true)
    by (vm_compute; reflexivity).
  split; [exact H|].
  apply (proj1 (@on_lane_rule_iff_strictly_within_tolerance world planner on_b_inside lane_b H)).
  vm_compute. reflexivity.
Defined.

(** The boundary of the tolerance: 9.999 degrees is accepted on the lane,
    10 and 10.001 degrees are not and, there being no parking here, rejected. *)
Example tolerance_boundary :
  is_goal_valid_at planner 5 on_b_inside [lane_a; lane_b] = Returned ([], ValidOnLane) /\
  is_goal_valid_at planner 5 on_b_at [lane_a; lane_b] = Returned ([], NotValid) /\
  is_goal_valid_at planner 5 on_b_outside [lane_a; lane_b] = Returned ([], NotValid).
Proof.
  repeat split; vm_compute; reflexivity.
Qed.

(** C3, as stated, fails: a request with no path to its goal, one whose goal
    is askew and one that drives back over [lane_a] fail with three
    different warnings and return the same value, so no function of the
    value returned tells the failures apart. *)
Lemma plan_failure_kind_not_in_value_counterexample :
  plan 5 planner [on_a; in_lot]
    = Returned (mkExit planner [FailedToPlanRoute] empty_route) /\
  plan 5 planner [on_a; on_b_askew]
    = Returned (mkExit (with_route_lanelets planner [lane_a; lane_b])
                       [GoalIsNotValid] empty_route) /\
  plan 5 planner [on_a; on_b; on_a]
    = Returned (mkExit (with_route_lanelets planner [lane_a; lane_b; lane_a])
                       [LoopDetected] empty_route) /\
  ~ failure_told_by_value world.
Proof.
  assert (P1 : plan 5 planner [on_a; in_lot]
               = Returned (mkExit planner [FailedToPlanRoute] empty_route))
    by reflexivity.
  assert (P2 : plan 5 planner [on_a; on_b_askew]
               = Returned (mkExit (with_route_lanelets planner [lane_a; lane_b])
                                  [GoalIsNotValid] empty_route))
    by reflexivity.
  split; [exact P1|]. split; [exact P2|]. split; [reflexivity|].
  intros [tell H].
  pose proof (H _ _ _ _ [] FailedToPlanRoute P1 eq_refl) as T1.
  pose proof (H _ _ _ _ [] GoalIsNotValid P2 eq_refl) as T2.
  simpl in T1, T2. congruence.
Qed.

(** Two checkpoints on [lane_a] and [lane_b]: the route of two sections. *)
Lemma plan_returns_route_or_empty_route_witness :
  exists e,
    plan 5 planner [on_a; on_b] = Returned e /\
    ((exists all last_point goal refined start,
         let planner' := with_route_lanelets planner all in
         let route_sections := createMapSegments world (route_handler_ planner') all in
         plan_route_lanelets planner [on_a; on_b] [] = Some all /\
         back [on_a; on_b] = Some last_point /\
         select_goal_pose planner' last_point = Returned goal /\
         is_goal_valid planner' 5 goal all = Returned ([], true) /\
         isRouteLooped world (route_handler_ planner') route_sections = false /\
         refine_goal_height planner' goal route_sections = Returned refined /\
         front [on_a; on_b] = Some start /\
         e = mkExit planner' [] (mkRoute start refined route_sections)) \/
     (returned e = empty_route /\
      exists kind w,
        plan_failure 5 planner [on_a; on_b] kind /\ warnings e = w ++ [kind])).
Proof.
  eexists. split; [reflexivity|].
  apply (@plan_returns_route_or_empty_route world 5 planner [on_a; on_b]).
  reflexivity.
Defined.

(** No path leads from [lane_a] into the parking lot. *)
Lemma plan_failure_returns_empty_route_witness :
  plan_failure 5 planner [on_a; in_lot] FailedToPlanRoute /\
  exists e,
    plan 5 planner [on_a; in_lot] = Returned e /\
    returned e = empty_route /\
    segments (returned e) = [] /\
    (exists w, warnings e = w ++ [FailedToPlanRoute]) /\
    (FailedToPlanRoute = FailedToPlanRoute ->
     e = mkExit planner [FailedToPlanRoute] empty_route).
Proof.
  assert (H : plan_failure 5 planner [on_a; in_lot] FailedToPlanRoute).
  { apply (@fails_no_path world 5 planner [on_a; in_lot] [] on_a in_lot []);
      vm_compute; reflexivity. }
  split; [exact H|].
  exact (@plan_failure_returns_empty_route world 5 planner [on_a; in_lot]
           FailedToPlanRoute H).
Defined.

(** From [lane_a] to [lane_b] and on to [lane_c]: [lane_b] ends the first
    result and starts the second, and is kept once. *)
Lemma no_adjacent_duplicate_witness :
  plan_route_lanelets planner [on_a; on_b; pose_at 12 2 0] [] = Some [lane_a; lane_b; lane_c] /\
  adjacent_ids_differ (map id [lane_a; lane_b; lane_c]).
Proof.
  assert (H : plan_route_lanelets planner [on_a; on_b; pose_at 12 2 0] []
              = Some [lane_a; lane_b; lane_c]) by (vm_compute; reflexivity).
  split; [exact H|].
  exact (proj1 (proj2 plan_route_lanelets_no_adjacent_duplicate)
           world planner [on_a; on_b; pose_at 12 2 0] [lane_a; lane_b; lane_c] H).
Defined.

(** A goal on [lane_b] at the height of its centerline. *)
Lemma refine_goal_height_fixes_corrected_goal_witness :
  back [mkSegment 1 [1%Z]; mkSegment 2 [2%Z]] = Some (mkSegment 2 [2%Z]) /\
  pt_z (position on_b)
    = project_goal_to_map world (getLaneletsFromId world (route_handler_ planner) 2)
        (position on_b) /\
  refine_goal_height planner on_b [mkSegment 1 [1%Z]; mkSegment 2 [2%Z]] = Returned on_b /\
  (refined <- refine_goal_height planner on_b [mkSegment 1 [1%Z]; mkSegment 2 [2%Z]] ;;
   refine_goal_height planner refined [mkSegment 1 [1%Z]; mkSegment 2 [2%Z]])
  = refine_goal_height planner on_b [mkSegment 1 [1%Z]; mkSegment 2 [2%Z]].
Proof.
  assert (H1 : back [mkSegment 1 [1%Z]; mkSegment 2 [2%Z]] = Some (mkSegment 2 [2%Z]))
    by reflexivity.
  assert (H2 : pt_z (position on_b)
               = project_goal_to_map world
                   (getLaneletsFromId world (route_handler_ planner)
                      (preferred_primitive (mkSegment 2 [2%Z])))
                   (position on_b)) by (vm_compute; reflexivity).
  split; [exact H1|]. split; [exact H2|].
  exact (@refine_goal_height_fixes_corrected_goal world planner on_b
           [mkSegment 1 [1%Z]; mkSegment 2 [2%Z]] (mkSegment 2 [2%Z]) H1 H2).
Defined.

(** A single checkpoint in the parking lot: the goal is valid, no section is
    made, and [plan] reads past the end of the empty [route_sections]. *)
Lemma refine_goal_height_requires_route_sections_witness :
  createMapSegments world (route_handler_ (with_route_lanelets planner [])) [] = [] /\
  select_goal_pose (with_route_lanelets planner []) in_lot = Returned in_lot /\
  is_goal_valid (with_route_lanelets planner []) 5 in_lot [] = Returned ([], true) /\
  isRouteLooped world (route_handler_ (with_route_lanelets planner []))
    (createMapSegments world (route_handler_ (with_route_lanelets planner [])) []) = false /\
  refine_goal_height (with_route_lanelets planner []) in_lot
    (createMapSegments world (route_handler_ (with_route_lanelets planner [])) [])
    = OutOfBounds /\
  plan 5 planner [in_lot] = OutOfBounds.
Proof.
  assert (H1 : createMapSegments world (route_handler_ (with_route_lanelets planner [])) []
               = []) by reflexivity.
  assert (H2 : select_goal_pose (with_route_lanelets planner []) in_lot = Returned in_lot)
    by reflexivity.
  assert (H3 : is_goal_valid (with_route_lanelets planner []) 5 in_lot []
               = Returned ([], true)) by (vm_compute; reflexivity).
  assert (H4 : isRouteLooped world (route_handler_ (with_route_lanelets planner []))
                 (createMapSegments world (route_handler_ (with_route_lanelets planner [])) [])
               = false) by reflexivity.
  split; [exact H1|]. split; [exact H2|]. split; [exact H3|]. split; [exact H4|].
  exact (proj2 (proj2 (proj2 (@refine_goal_height_requires_route_sections world planner)))
           5%nat in_lot in_lot [] H1 H2 H3 H4).
Defined.

(** * Further properties of the code *)

Import Visualization Vocabulary TestInputs.

(** ** Geometry predicates *)

(** X1: [is_in_parking_lot] holds exactly when some lot of the list is
    within [epsilon] of the point; hence it holds for two lists put together
    exactly when it holds for one of them. *)
Theorem is_in_parking_lot_iff_some_lot :
  forall (W : Collaborators) (parking_lots : list Polygon3d) (point : BasicPoint3d),
    (is_in_parking_lot W parking_lots point = true <->
     exists parking_lot,
       In parking_lot parking_lots /\
       distance W (map to2D parking_lot) (to2D point) < epsilon) /\
    (forall more_lots,
        is_in_parking_lot W (parking_lots ++ more_lots) point
        = is_in_parking_lot W parking_lots point || is_in_parking_lot W more_lots point).
Proof.
  intros W lots point. split.
  - induction lots as [|lot rest IH]; simpl.
    + split; [discriminate|]. intros [l [[] _]].
    + destruct (Qltb (distance W (map to2D lot) (to2D point)) epsilon) eqn:E.
      * split; [|reflexivity]. intros _. exists lot. split; [left; reflexivity|].
        apply Qltb_lt. exact E.
      * rewrite IH. split.
        -- intros [l [Hin Hd]]. exists l. split; [right; exact Hin|exact Hd].
        -- intros [l [[Heq|Hin] Hd]].
           ++ subst l. apply Qltb_lt in Hd. congruence.
           ++ exists l. split; assumption.
  - intro more. induction lots as [|lot rest IH]; simpl; [reflexivity|].
    destruct (Qltb _ _); [reflexivity|exact IH].
Qed.

(** X2: [is_in_parking_space] holds exactly when some parking space of the
    list can be turned into a polygon that is within [epsilon] of the
    point; a space whose line string cannot be turned into a polygon is
    passed over and never makes the test true. *)
Theorem is_in_parking_space_iff_some_space :
  forall (W : Collaborators) (parking_spaces : list LineString3d) (point : BasicPoint3d),
    is_in_parking_space W parking_spaces point = true <->
    exists parking_space parking_space_polygon,
      In parking_space parking_spaces /\
      lineStringWithWidthToPolygon W parking_space = Some parking_space_polygon /\
      distance W (map to2D parking_space_polygon) (to2D point) < epsilon.
Proof.
  intros W spaces point. induction spaces as [|space rest IH]; simpl.
  - split; [discriminate|]. intros [sp [poly [[] _]]].
  - destruct (lineStringWithWidthToPolygon W space) as [poly|] eqn:Hconv.
    + destruct (Qltb (distance W (map to2D poly) (to2D point)) epsilon) eqn:E.
      * split; [|reflexivity]. intros _. exists space, poly.
        split; [left; reflexivity|]. split; [exact Hconv|]. apply Qltb_lt. exact E.
      * rewrite IH. split.
        -- intros [sp [pl [Hin H]]]. exists sp, pl. split; [right; exact Hin|exact H].
        -- intros [sp [pl [[Heq|Hin] [Hc Hd]]]].
           ++ subst sp. rewrite Hconv in Hc. inversion Hc; subst pl.
              apply Qltb_lt in Hd. congruence.
           ++ exists sp, pl. split; [exact Hin|]. split; assumption.
    + rewrite IH. split.
      * intros [sp [pl [Hin H]]]. exists sp, pl. split; [right; exact Hin|exact H].
      * intros [sp [pl [[Heq|Hin] [Hc Hd]]]].
        -- subst sp. congruence.
        -- exists sp, pl. split; [exact Hin|]. split; assumption.
Qed.

(** ** Snapping the goal onto the centerline *)



(** ** Goal validator *)

Section MoreValidatorProperties.

Variable W : Collaborators.
Variable self : DefaultPlanner W.

(** X4: a goal whose closest shoulder lanelet it is aligned with is valid
    whatever else holds: the road lanelets, the footprint and the parking
    areas are not looked at, and the containment search is not run (the
    result is there with no recursion budget at all). *)
Theorem is_goal_valid_shoulder_rule_first :
  forall (goal : Pose) (closest_shoulder_lanelet : Lanelet),
    getClosestLanelet W (getShoulderLaneletsAtPose W (route_handler_ self) goal) goal
      = Some closest_shoulder_lanelet ->
    heading_within_threshold self closest_shoulder_lanelet goal = true ->
    forall (fuel : nat) (path_lanelets : list Lanelet),
      is_goal_valid_at self fuel goal path_lanelets = Returned ([], ValidOnShoulder) /\
      is_goal_valid self fuel goal path_lanelets = Returned ([], true).
Proof.
  intros goal sh Hsh Hhead fuel path.
  assert (H : is_goal_valid_at self fuel goal path = Returned ([], ValidOnShoulder)).
  { unfold is_goal_valid_at. rewrite Hsh, Hhead. reflexivity. }
  split; [exact H|]. unfold is_goal_valid. rewrite H. reflexivity.
Qed.

(** X5: when no road lanelet lies at the goal and the nearest-lanelet
    search of the map returns nothing, a goal the shoulder rule does not
    accept is rejected, without a warning and without the containment
    search: whatever lanelet the visitor has recorded, and whether or not
    the goal is in a parking space or a parking lot. *)
Theorem is_goal_valid_rejects_without_road_lanelet :
  forall (goal : Pose),
    (forall sh,
        getClosestLanelet W (getShoulderLaneletsAtPose W (route_handler_ self) goal) goal
          = Some sh ->
        heading_within_threshold self sh goal = false) ->
    getClosestLanelet W (getRoadLaneletsAtPose W (route_handler_ self) goal) goal = None ->
    fst (nearestUntil W (route_handler_ self)
           (mkPoint2d (pt_x (position goal)) (pt_y (position goal)))
           (closest_road_visitor self (mkPoint2d (pt_x (position goal)) (pt_y (position goal))))
           (DBL_MAX, null_lanelet)) = None ->
    forall (fuel : nat) (path_lanelets : list Lanelet),
      is_goal_valid_at self fuel goal path_lanelets = Returned ([], NoRoadLanelet) /\
      is_goal_valid self fuel goal path_lanelets = Returned ([], false).
Proof.
  intros goal Hsh Hroad Hnear fuel path.
  assert (Hfind : find_closest_road_lanelet self goal = None).
  { unfold find_closest_road_lanelet. rewrite Hroad. cbv zeta. rewrite Hnear. reflexivity. }
  assert (H : is_goal_valid_at self fuel goal path = Returned ([], NoRoadLanelet)).
  { unfold is_goal_valid_at.
    destruct (getClosestLanelet W (getShoulderLaneletsAtPose W (route_handler_ self) goal) goal)
      as [sh|] eqn:E.
    - rewrite (Hsh sh eq_refl), Hfind. reflexivity.
    - rewrite Hfind. reflexivity. }
  split; [exact H|]. unfold is_goal_valid. rewrite H. reflexivity.
Qed.

(** X6: once a closest road lanelet is found, a goal in a parking lot is
    never rejected: whenever [is_goal_valid] returns for it, it returns
    true and logs nothing, with the footprint check enabled or not and
    whether the containment search succeeds or fails. *)
Theorem is_goal_valid_accepts_in_parking_lot :
  forall (fuel : nat) (goal : Pose) (path_lanelets : list Lanelet)
         (closest_lanelet : Lanelet) (w : list Warning) (valid : bool),
    is_in_parking_lot W (getAllParkingLots W (route_handler_ self)) (position goal) = true ->
    find_closest_road_lanelet self goal = Some closest_lanelet ->
    is_goal_valid self fuel goal path_lanelets = Returned (w, valid) ->
    valid = true /\ w = [].
Proof.
  intros fuel goal path cl w valid Hlot Hcl H.
  unfold is_goal_valid in H. bind_inv H. destruct r as [w' v]. simpl in H.
  inversion H; subst. clear H. unfold is_goal_valid_at in Hr.
  destruct (match getClosestLanelet W _ goal with Some _ => _ | None => _ end).
  - inversion Hr. split; reflexivity.
  - rewrite Hcl in Hr. bind_inv Hr.
    assert (r = false).
    { unfold footprint_exceeds_lane in Hr0. rewrite Hlot in Hr0.
      destruct (check_footprint_inside_lanes (param_ self)); [|inversion Hr0; reflexivity].
      bind_inv Hr0. destruct (fst r0); inversion Hr0; reflexivity. }
    subst r.
    destruct (on_lane_rule _ _ _); [inversion Hr; split; reflexivity|].
    destruct (is_in_parking_space _ _ _); [inversion Hr; split; reflexivity|].
    rewrite Hlot in Hr. inversion Hr. split; reflexivity.
Qed.

(** X8: [is_goal_valid] logs a warning exactly when it rejects the goal for
    its footprint, and that happens only with the check enabled, a closest
    road lanelet found, the containment search from it failed and the goal
    in no parking lot; every other return logs nothing. *)
Theorem is_goal_valid_warns_iff_footprint_rejected :
  forall (fuel : nat) (goal : Pose) (path_lanelets : list Lanelet)
         (w : list Warning) (v : GoalVerdict),
    is_goal_valid_at self fuel goal path_lanelets = Returned (w, v) ->
    (w = [] /\ v <> FootprintOutside) \/
    (w = [FootprintExceedsLane] /\ v = FootprintOutside /\
     check_footprint_inside_lanes (param_ self) = true /\
     is_in_parking_lot W (getAllParkingLots W (route_handler_ self)) (position goal) = false /\
     exists closest_lanelet len,
       find_closest_road_lanelet self goal = Some closest_lanelet /\
       check_goal_footprint_inside_lanes self (goal_polygon_footprint self goal) fuel
         closest_lanelet
         (combine_lanelets_with_shoulder W (route_handler_ self) path_lanelets)
         0 (default_search_margin W) = Returned (false, len)).
Proof.
  intros fuel goal path w v H. unfold is_goal_valid_at in H.
  destruct (match getClosestLanelet W _ goal with Some _ => _ | None => _ end).
  - inversion H. left. split; [reflexivity|discriminate].
  - destruct (find_closest_road_lanelet self goal) as [cl|] eqn:Hcl.
    + bind_inv H. destruct r.
      * inversion H; subst. right. split; [reflexivity|]. split; [reflexivity|].
        unfold footprint_exceeds_lane in Hr.
        destruct (check_footprint_inside_lanes (param_ self)); [|discriminate].
        split; [reflexivity|]. bind_inv Hr. destruct r as [[|] len]; simpl in Hr.
        -- discriminate.
        -- inversion Hr as [Hlot]. apply negb_true_iff in Hlot.
           split; [exact Hlot|]. exists cl, len. split; [reflexivity|exact Hr0].
      * left.
        destruct (on_lane_rule _ _ _); [inversion H; split; [reflexivity|discriminate]|].
        destruct (is_in_parking_space _ _ _);
          [inversion H; split; [reflexivity|discriminate]|].
        destruct (is_in_parking_lot _ _ _); inversion H; (split; [reflexivity|discriminate]).
    + inversion H. left. split; [reflexivity|discriminate].
Qed.

End MoreValidatorProperties.

Lemma is_goal_valid_shoulder_rule_first_witness :
  getClosestLanelet world_with_shoulder
    (getShoulderLaneletsAtPose world_with_shoulder (route_handler_ planner_with_shoulder)
       on_shoulder) on_shoulder = Some shoulder /\
  heading_within_threshold planner_with_shoulder shoulder on_shoulder = true /\
  is_goal_valid planner_with_shoulder 0 on_shoulder [] = Returned ([], true).
Proof.
  assert (H1 : getClosestLanelet world_with_shoulder
                 (getShoulderLaneletsAtPose world_with_shoulder
                    (route_handler_ planner_with_shoulder) on_shoulder) on_shoulder
               = Some shoulder) by reflexivity.
  assert (H2 : heading_within_threshold planner_with_shoulder shoulder on_shoulder = true)
    by reflexivity.
  split; [exact H1|]. split; [exact H2|].
  exact (proj2 (@is_goal_valid_shoulder_rule_first world_with_shoulder planner_with_shoulder
                  on_shoulder shoulder H1 H2 O [])).
Defined.

Lemma is_goal_valid_rejects_without_road_lanelet_witness :
  getClosestLanelet world (getRoadLaneletsAtPose world (route_handler_ planner) far_away)
    far_away = None /\
  is_goal_valid planner 5 far_away [lane_a] = Returned ([], false).
Proof.
  assert (H1 : getClosestLanelet world
                 (getRoadLaneletsAtPose world (route_handler_ planner) far_away) far_away
               = None) by reflexivity.
  split; [exact H1|].
  refine (proj2 (@is_goal_valid_rejects_without_road_lanelet world planner far_away
                   _ H1 _ 5%nat [lane_a])).
  - intros sh Hsh. discriminate Hsh.
  - reflexivity.
Defined.

Lemma is_goal_valid_accepts_in_parking_lot_witness :
  is_in_parking_lot world (getAllParkingLots world (route_handler_ planner)) (position in_lot)
    = true /\
  find_closest_road_lanelet planner in_lot = Some lane_a /\
  is_goal_valid planner 5 in_lot [lane_a] = Returned ([], true) /\
  true = true /\ @nil Warning = [].
Proof.
  assert (H1 : is_in_parking_lot world (getAllParkingLots world (route_handler_ planner))
                 (position in_lot) = true) by reflexivity.
  assert (H2 : find_closest_road_lanelet planner in_lot = Some lane_a) by reflexivity.
  assert (H3 : is_goal_valid planner 5 in_lot [lane_a] = Returned ([], true)) by reflexivity.
  split; [exact H1|]. split; [exact H2|]. split; [exact H3|].
  exact (@is_goal_valid_accepts_in_parking_lot world planner 5 in_lot [lane_a] lane_a
           [] true H1 H2 H3).
Defined.

Lemma is_goal_valid_warns_iff_footprint_rejected_witness :
  is_goal_valid_at planner 5 at_end_of_c [lane_a; lane_b; lane_c]
    = Returned ([FootprintExceedsLane], FootprintOutside) /\
  (([FootprintExceedsLane] = [] /\ FootprintOutside <> FootprintOutside) \/
   ([FootprintExceedsLane] = [FootprintExceedsLane] /\ FootprintOutside = FootprintOutside /\
    check_footprint_inside_lanes (param_ planner) = true /\
    is_in_parking_lot world (getAllParkingLots world (route_handler_ planner))
      (position at_end_of_c) = false /\
    exists closest_lanelet len,
      find_closest_road_lanelet planner at_end_of_c = Some closest_lanelet /\
      check_goal_footprint_inside_lanes planner (goal_polygon_footprint planner at_end_of_c) 5
        closest_lanelet
        (combine_lanelets_with_shoulder world (route_handler_ planner)
           [lane_a; lane_b; lane_c])
        0 (default_search_margin world) = Returned (false, len))).
Proof.
  assert (H : is_goal_valid_at planner 5 at_end_of_c [lane_a; lane_b; lane_c]
              = Returned ([FootprintExceedsLane], FootprintOutside)) by reflexivity.
  split; [exact H|].
  exact (@is_goal_valid_warns_iff_footprint_rejected world planner 5 at_end_of_c
           [lane_a; lane_b; lane_c] _ _ H).
Defined.

(** ** Containment search *)

Section MoreSearchProperties.

Variable W : Collaborators.
Variable self : DefaultPlanner W.
Variable goal_footprint : BasicPolygon2d.

(** A recursive call that succeeds only on a footprint held by a polygon
    the chain leads to. *)
Let sound (deeper : Lanelet -> Lanelet -> Q -> Outcome (bool * Q)) : Prop :=
  forall nl c l l',
    deeper nl c l = Returned (true, l') ->
    exists current' combined',
      extends self nl c current' combined' /\
      within W goal_footprint (polygon2d combined') = true.

Lemma search_following_sound deeper current combined_prev search_margin following :
  sound deeper ->
  incl following (getNextLanelets W (route_handler_ self) current) ->
  forall len len',
    search_following self goal_footprint deeper combined_prev search_margin following len
      = Returned (true, len') ->
    exists current' combined',
      extends self current combined_prev current' combined' /\
      within W goal_footprint (polygon2d combined') = true.
Proof.
  intros Hd. induction following as [|next_lane rest IH]; simpl; intros Hincl len len' H.
  - discriminate.
  - assert (Hin : In next_lane (getNextLanelets W (route_handler_ self) current))
      by (apply Hincl; left; reflexivity).
    assert (Hrest : incl rest (getNextLanelets W (route_handler_ self) current))
      by (intros x Hx; apply Hincl; right; exact Hx).
    bind_inv H. destruct r as [[|] l].
    + clear H. unfold visit_next_lane in Hr. destruct (long_enough _ _ _).
      * unfold test_containment in Hr.
        destruct (within W goal_footprint _) eqn:Hin'; [|discriminate].
        eexists _, _. split; [|exact Hin'].
        eapply extends_next; [exact Hin|apply extends_here].
      * unfold search_deeper in Hr. bind_inv Hr. destruct r as [[|] l0]; [|discriminate].
        apply Hd in Hr0. destruct Hr0 as [cur' [comb' [Hext Hw]]].
        exists cur', comb'. split; [|exact Hw].
        eapply extends_next; [exact Hin|exact Hext].
    + eapply IH; [exact Hrest|exact H].
Qed.

(** X9: the containment search accepts only a footprint that is within the
    accumulated lanelet it was given or within one obtained from it by
    merging in, one after the other, lanelets that follow each other in the
    graph from the current lanelet on. *)
Theorem check_goal_footprint_inside_lanes_true_is_contained :
  forall (fuel : nat) (current_lanelet combined_prev_lanelet : Lanelet)
         (next_lane_length search_margin len' : Q),
    check_goal_footprint_inside_lanes self goal_footprint fuel current_lanelet
      combined_prev_lanelet next_lane_length search_margin = Returned (true, len') ->
    exists current' combined',
      extends self current_lanelet combined_prev_lanelet current' combined' /\
      within W goal_footprint (polygon2d combined') = true.
Proof.
  induction fuel as [|fuel IH]; simpl; intros cur comb len margin len' H; [discriminate|].
  destruct (within W goal_footprint (polygon2d comb)) eqn:Hw.
  - exists cur, comb. split; [apply extends_here|exact Hw].
  - eapply search_following_sound; [|apply incl_refl|exact H].
    intros nl c l l' Hrec. eapply IH. exact Hrec.
Qed.

End MoreSearchProperties.

Lemma check_goal_footprint_inside_lanes_true_is_contained_witness :
  check_goal_footprint_inside_lanes planner long_footprint 5 lane_a lane_a 0 2
    = Returned (true, 0 + 5) /\
  exists current' combined',
    extends planner lane_a lane_a current' combined' /\
    within world long_footprint (polygon2d combined') = true.
Proof.
  assert (H : check_goal_footprint_inside_lanes planner long_footprint 5 lane_a lane_a 0 2
              = Returned (true, 0 + 5)) by reflexivity.
  split; [exact H|].
  exact (@check_goal_footprint_inside_lanes_true_is_contained world planner long_footprint
           5 lane_a lane_a 0 2 (0 + 5) H).
Defined.

(** ** Route composer *)

(** X12: merging a path into the lanelets accumulated so far only appends:
    what was accumulated stays in front, and what is added is the path with
    some lanelets left out, in the order of the path. *)
Theorem append_path_appends_subsequence :
  forall (path_lanelets all_route_lanelets : list Lanelet),
    exists kept,
      append_path path_lanelets all_route_lanelets = all_route_lanelets ++ kept /\
      subsequence kept path_lanelets /\
      (length kept <= length path_lanelets)%nat.
Proof.
  induction path_lanelets as [|lane rest IH]; intro all; simpl.
  - exists []. split; [rewrite app_nil_r; reflexivity|].
    split; [apply subsequence_nil|simpl; lia].
  - destruct (repeats_back all lane).
    + destruct (IH all) as [kept [E [Hs Hl]]]. exists kept.
      split; [exact E|]. split; [apply subsequence_skip; exact Hs|lia].
    + destruct (IH (all ++ [lane])) as [kept [E [Hs Hl]]]. exists (lane :: kept).
      split; [rewrite E, <- app_assoc; reflexivity|].
      split; [apply subsequence_keep; exact Hs|simpl; lia].
Qed.

Lemma back_some_snoc (A : Type) (l : list A) (b : A) :
  back l = Some b -> exists l', l = l' ++ [b].
Proof.
  destruct (snoc_cases l) as [->|[l' [y ->]]]; [discriminate|].
  rewrite back_snoc. intro H. inversion H. exists l'. reflexivity.
Qed.

Lemma adjacent_ids_differ_at_seam (all : list Lanelet) (lane : Lanelet) (rest : list Lanelet) :
  adjacent_ids_differ (map id (all ++ lane :: rest)) -> repeats_back all lane = false.
Proof.
  intro Hadj. unfold repeats_back. destruct (back all) as [b|] eqn:Hb; [|reflexivity].
  apply back_some_snoc in Hb. destruct Hb as [l' ->].
  apply Z.eqb_neq. intro E. apply (Hadj (length l') (id b) (id lane)); [| |congruence].
  - rewrite <- app_assoc, map_app, nth_error_app2 by (rewrite length_map; lia).
    rewrite length_map, Nat.sub_diag. reflexivity.
  - rewrite <- app_assoc, map_app, nth_error_app2 by (rewrite length_map; lia).
    rewrite length_map. replace (S (length l') - length l')%nat with 1%nat by lia.
    reflexivity.
Qed.

(** X13: a path is merged whole when no lanelet of it repeats its
    predecessor: if the accumulated lanelets followed by the path have no
    two neighbours of equal id, no lanelet is dropped. *)
Theorem append_path_keeps_path_without_repeats :
  forall (path_lanelets all_route_lanelets : list Lanelet),
    adjacent_ids_differ (map id (all_route_lanelets ++ path_lanelets)) ->
    append_path path_lanelets all_route_lanelets = all_route_lanelets ++ path_lanelets.
Proof.
  induction path_lanelets as [|lane rest IH]; intros all Hadj; simpl.
  - rewrite app_nil_r. reflexivity.
  - rewrite (adjacent_ids_differ_at_seam _ _ _ Hadj).
    rewrite IH by (rewrite <- app_assoc; exact Hadj).
    rewrite <- app_assoc. reflexivity.
Qed.

Lemma append_path_keeps_path_without_repeats_witness :
  adjacent_ids_differ (map id ([lane_a] ++ [lane_b; lane_c])) /\
  append_path [lane_b; lane_c] [lane_a] = [lane_a] ++ [lane_b; lane_c].
Proof.
  assert (H : adjacent_ids_differ (map id ([lane_a] ++ [lane_b; lane_c]))).
  { intros i a b Ha Hb. destruct i as [|[|[|i]]]; simpl in Ha, Hb;
      inversion Ha; inversion Hb; subst; discriminate. }
  split; [exact H|].
  exact (@append_path_keeps_path_without_repeats [lane_b; lane_c] [lane_a] H).
Defined.

Lemma plan_route_lanelets_as_fold (W : Collaborators) (self : DefaultPlanner W)
    (points : list Pose) :
  forall all,
    plan_route_lanelets self points all
    = option_map
        (fun results => fold_left (fun acc path => append_path path acc) results all)
        (search_all_pairs self (checkpoint_pairs points)).
Proof.
  induction points as [|p t IH]; intro all; [reflexivity|].
  destruct t as [|q t]; [reflexivity|].
  rewrite plan_route_lanelets_step.
  change (checkpoint_pairs (p :: q :: t)) with ((p, q) :: checkpoint_pairs (q :: t)).
  remember (checkpoint_pairs (q :: t)) as pairs. cbn [search_all_pairs].
  destruct (planPathLaneletsBetweenCheckpoints W (route_handler_ self) p q _) as [path|];
    [|reflexivity].
  rewrite IH. destruct (search_all_pairs self pairs); reflexivity.
Qed.

(** X14: the loop of [plan], which searches a pair and merges its path
    before it searches the next, yields what searching every consecutive
    pair first and merging the paths afterwards yields: nothing when some
    pair has no path, the merged paths otherwise. *)
Theorem plan_route_lanelets_is_search_then_merge :
  forall (W : Collaborators) (self : DefaultPlanner W) (points : list Pose),
    plan_route_lanelets self points []
    = option_map merge_paths (search_all_pairs self (checkpoint_pairs points)).
Proof.
  intros W self points. apply plan_route_lanelets_as_fold.
Qed.

Section InBounds.

Variable W : Collaborators.
Variable self : DefaultPlanner W.

Lemma search_following_in_bounds goal_footprint deeper combined_prev search_margin following :
  (forall nl c l, deeper nl c l <> OutOfBounds) ->
  forall len,
    search_following self goal_footprint deeper combined_prev search_margin following len
    <> OutOfBounds.
Proof.
  intro Hd. induction following as [|next_lane rest IH]; simpl; intro len; [discriminate|].
  unfold visit_next_lane. destruct (long_enough _ _ _).
  - unfold test_containment. destruct (within _ _ _); simpl; [discriminate|apply IH].
  - unfold search_deeper.
    destruct (deeper next_lane _ _) as [[[|] l]| |] eqn:E; simpl;
      [discriminate|apply IH|exfalso; exact (Hd _ _ _ E)|discriminate].
Qed.

Lemma check_goal_footprint_inside_lanes_in_bounds goal_footprint fuel :
  forall cur comb len margin,
    check_goal_footprint_inside_lanes self goal_footprint fuel cur comb len margin
    <> OutOfBounds.
Proof.
  induction fuel as [|fuel IH]; simpl; intros cur comb len margin; [discriminate|].
  destruct (within _ _ _); [discriminate|].
  apply search_following_in_bounds. intros nl c l. apply IH.
Qed.

Lemma is_goal_valid_in_bounds fuel goal path :
  is_goal_valid self fuel goal path <> OutOfBounds.
Proof.
  unfold is_goal_valid, is_goal_valid_at.
  destruct (match getClosestLanelet W _ goal with Some _ => _ | None => _ end);
    [discriminate|].
  destruct (find_closest_road_lanelet self goal) as [cl|]; [|discriminate].
  unfold footprint_exceeds_lane.
  destruct (check_footprint_inside_lanes (param_ self)).
  - destruct (check_goal_footprint_inside_lanes self _ fuel cl _ 0 _)
      as [[[|] l]| |] eqn:E; simpl.
    + destruct (on_lane_rule _ _ _); [discriminate|].
      destruct (is_in_parking_space _ _ _); [discriminate|].
      destruct (is_in_parking_lot _ _ _); discriminate.
    + destruct (is_in_parking_lot W _ (position goal)); simpl; [|discriminate].
      destruct (on_lane_rule _ _ _); [discriminate|].
      destruct (is_in_parking_space _ _ _); discriminate.
    + exfalso. exact (check_goal_footprint_inside_lanes_in_bounds _ _ _ _ _ _ E).
    + discriminate.
  - simpl. destruct (on_lane_rule _ _ _); [discriminate|].
    destruct (is_in_parking_space _ _ _); [discriminate|].
    destruct (is_in_parking_lot _ _ _); discriminate.
Qed.

End InBounds.

(** X16: a route [plan] returns without a warning has at least one
    section, starts at the first checkpoint and ends at the goal selected
    from the last checkpoint (the last checkpoint itself when the goal is
    not snapped onto the centerline), of which it keeps x, y and
    orientation; only the height is replaced, by that of the projection onto
    the preferred lanelet of the last section. *)
Theorem plan_route_keeps_checkpoints :
  forall (W : Collaborators) (fuel : nat) (self : DefaultPlanner W) (points : list Pose)
         (e : PlanExit W),
    plan fuel self points = Returned e ->
    warnings e = [] ->
    exists first_point last_point goal last_section,
      front points = Some first_point /\
      back points = Some last_point /\
      select_goal_pose (planner_after e) last_point = Returned goal /\
      (enable_correct_goal_pose (param_ self) = false -> goal = last_point) /\
      start_pose (returned e) = first_point /\
      orientation (goal_pose (returned e)) = orientation goal /\
      pt_x (position (goal_pose (returned e))) = pt_x (position goal) /\
      pt_y (position (goal_pose (returned e))) = pt_y (position goal) /\
      back (segments (returned e)) = Some last_section /\
      pt_z (position (goal_pose (returned e)))
        = project_goal_to_map W
            (getLaneletsFromId W (route_handler_ (planner_after e))
               (preferred_primitive last_section))
            (position goal).
Proof.
  intros W fuel self points e H Hw. unfold plan in H.
  destruct (plan_route_lanelets self points []) as [all|];
    [|inversion H; subst e; discriminate].
  bind_inv H. rename r into last_point. bind_inv H. rename r into goal.
  bind_inv H. destruct r as [w valid]. cbn [fst snd] in H.
  destruct valid; cbn [negb] in H;
    [|inversion H; subst e; simpl in Hw; destruct w; discriminate].
  destruct (isRouteLooped W _ _);
    [inversion H; subst e; simpl in Hw; destruct w; discriminate|].
  bind_inv H. rename r into refined. bind_inv H. rename r into first_point.
  inversion H; subst e. clear H. simpl.
  unfold refine_goal_height in Hr2. bind_inv Hr2. rename r into last_section.
  inversion Hr2; subst refined. clear Hr2. simpl.
  exists first_point, last_point, goal, last_section.
  split; [destruct (front points); simpl in Hr3; inversion Hr3; reflexivity|].
  split; [destruct (back points); simpl in Hr; inversion Hr; reflexivity|].
  split; [exact Hr0|].
  split.
  { intro Hoff. unfold select_goal_pose in Hr0.
    change (param_ (with_route_lanelets self all)) with (param_ self) in Hr0.
    rewrite Hoff in Hr0. inversion Hr0. reflexivity. }
  repeat (split; [reflexivity|]).
  split; [|reflexivity].
  destruct (back (createMapSegments W _ all)); simpl in Hr4; inversion Hr4; reflexivity.
Qed.

Lemma plan_route_keeps_checkpoints_witness :
  let e := mkExit (with_route_lanelets planner [lane_a; lane_b]) []
             (mkRoute on_a on_b [mkSegment 1 [1%Z]; mkSegment 2 [2%Z]]) in
  plan 5 planner [on_a; on_b] = Returned e /\
  warnings e = [] /\
  exists first_point last_point goal last_section,
    front [on_a; on_b] = Some first_point /\
    back [on_a; on_b] = Some last_point /\
    select_goal_pose (planner_after e) last_point = Returned goal /\
    (enable_correct_goal_pose (param_ planner) = false -> goal = last_point) /\
    start_pose (returned e) = first_point /\
    orientation (goal_pose (returned e)) = orientation goal /\
    pt_x (position (goal_pose (returned e))) = pt_x (position goal) /\
    pt_y (position (goal_pose (returned e))) = pt_y (position goal) /\
    back (segments (returned e)) = Some last_section /\
    pt_z (position (goal_pose (returned e)))
      = project_goal_to_map world
          (getLaneletsFromId world (route_handler_ (planner_after e))
             (preferred_primitive last_section))
          (position goal).
Proof.
  intro e.
  assert (H : plan 5 planner [on_a; on_b] = Returned e) by reflexivity.
  assert (Hw : warnings e = []) by reflexivity.
  split; [exact H|]. split; [exact Hw|].
  exact (@plan_route_keeps_checkpoints world 5 planner [on_a; on_b] e H Hw).
Defined.

(** ** Visualisation *)

Section VisualisationProperties.

Variable W : Collaborators.
Variable rh : RH W.

Let lanelet_of := getLaneletsFromId W rh.

Let preferred_in (route_section : LaneletSegment) (lane_id : Z) : bool :=
  Z.eqb (preferred_primitive route_section) lane_id.

Lemma sort_section_lists (route_section : LaneletSegment) (ids : list Z) :
  forall acc,
    let sorted := fold_left (sort_lane W rh route_section) ids acc in
    route_lanelets sorted = route_lanelets acc ++ map lanelet_of ids /\
    goal_lanelets sorted
      = goal_lanelets acc ++ map lanelet_of (filter (preferred_in route_section) ids) /\
    end_lanelets sorted
      = end_lanelets acc
        ++ map lanelet_of (filter (fun i => negb (preferred_in route_section i)) ids).
Proof.
  induction ids as [|i rest IH]; intro acc; simpl.
  - rewrite !app_nil_r. repeat split.
  - destruct (IH (sort_lane W rh route_section acc i)) as [Hr [Hg He]].
    rewrite Hr, Hg, He. unfold sort_lane, preferred_in.
    destruct (Z.eqb (preferred_primitive route_section) i); simpl;
      rewrite <- ?app_assoc; repeat split.
Qed.

Lemma sort_sections_lists (route_sections : list LaneletSegment) :
  forall acc,
    let sorted :=
      fold_left (fun acc s => fold_left (sort_lane W rh s) (primitives s) acc)
                route_sections acc in
    route_lanelets sorted
      = route_lanelets acc ++ flat_map (fun s => map lanelet_of (primitives s)) route_sections /\
    goal_lanelets sorted
      = goal_lanelets acc
        ++ flat_map (fun s => map lanelet_of (filter (preferred_in s) (primitives s)))
             route_sections /\
    end_lanelets sorted
      = end_lanelets acc
        ++ flat_map
             (fun s => map lanelet_of (filter (fun i => negb (preferred_in s i)) (primitives s)))
             route_sections.
Proof.
  induction route_sections as [|s rest IH]; intro acc; simpl.
  - rewrite !app_nil_r. repeat split.
  - destruct (IH (fold_left (sort_lane W rh s) (primitives s) acc)) as [Hr [Hg He]].
    destruct (sort_section_lists s (primitives s) acc) as [Hr' [Hg' He']].
    rewrite Hr, Hg, He, Hr', Hg', He', <- !app_assoc. repeat split.
Qed.

Lemma sort_lane_partition (route_section : LaneletSegment) (acc : RouteLanelets) (i : Z) :
  Permutation (route_lanelets acc) (goal_lanelets acc ++ end_lanelets acc) ->
  Permutation (route_lanelets (sort_lane W rh route_section acc i))
              (goal_lanelets (sort_lane W rh route_section acc i)
               ++ end_lanelets (sort_lane W rh route_section acc i)).
Proof.
  intro P. unfold sort_lane.
  destruct (Z.eqb (preferred_primitive route_section) i); simpl.
  - rewrite <- app_assoc. simpl.
    eapply Permutation_trans; [apply Permutation_sym, Permutation_cons_append|].
    eapply Permutation_trans; [apply perm_skip; exact P|]. apply Permutation_middle.
  - rewrite app_assoc. apply Permutation_app_tail. exact P.
Qed.

(** X17: [visualize] hands every lanelet of the route to the markers once
    as a route lanelet, in the order of the sections and of their
    primitives, and sorts it either with the goal lanelets, when its id is
    the preferred id of its section, or with the end lanelets: the goal
    and end lanelets together are the route lanelets rearranged. *)
Theorem sort_route_lanelets_partitions :
  forall route : LaneletRoute,
    let sorted := sort_route_lanelets W rh route in
    route_lanelets sorted
      = flat_map (fun s => map (getLaneletsFromId W rh) (primitives s)) (segments route) /\
    goal_lanelets sorted
      = flat_map
          (fun s => map (getLaneletsFromId W rh)
                        (filter (Z.eqb (preferred_primitive s)) (primitives s)))
          (segments route) /\
    end_lanelets sorted
      = flat_map
          (fun s => map (getLaneletsFromId W rh)
                        (filter (fun i => negb (Z.eqb (preferred_primitive s) i))
                                (primitives s)))
          (segments route) /\
    Permutation (route_lanelets sorted) (goal_lanelets sorted ++ end_lanelets sorted).
Proof.
  intro route. cbv zeta. unfold sort_route_lanelets.
  destruct (sort_sections_lists (segments route) (mkRouteLanelets [] [] []))
    as [Hr [Hg He]].
  split; [exact Hr|]. split; [exact Hg|]. split; [exact He|].
  assert (H : forall secs acc,
             Permutation (route_lanelets acc) (goal_lanelets acc ++ end_lanelets acc) ->
             let sorted :=
               fold_left (fun acc s => fold_left (sort_lane W rh s) (primitives s) acc)
                         secs acc in
             Permutation (route_lanelets sorted) (goal_lanelets sorted ++ end_lanelets sorted)).
  { induction secs as [|s rest IH]; intros acc P; simpl; [exact P|].
    apply IH. generalize dependent acc.
    induction (primitives s) as [|i ids IHi]; intros acc P; simpl; [exact P|].
    apply IHi. apply sort_lane_partition. exact P. }
  apply H. simpl. apply Permutation_refl.
Qed.

End VisualisationProperties.

(** X18: [visualize_debug_footprint] reads the first six vertices of the
    footprint unguarded: it is defined exactly on a footprint of six
    vertices or more.  The line strip it then draws has seven points at
    height zero, the six vertices in their order and the first one again,
    and any further vertex of the footprint is ignored. *)
Theorem visualize_debug_footprint_closed_strip :
  forall goal_footprint : BasicPolygon2d,
    (visualize_debug_footprint_points goal_footprint = OutOfBounds <->
     (length goal_footprint < 6)%nat) /\
    ((6 <= length goal_footprint)%nat ->
     exists points,
       visualize_debug_footprint_points goal_footprint = Returned points /\
       length points = 7%nat /\
       nth_error points 6 = nth_error points 0 /\
       firstn 6 points
         = map (fun v => mkPoint3d (x2 v) (y2 v) 0) (firstn 6 goal_footprint) /\
       visualize_debug_footprint_points (firstn 6 goal_footprint) = Returned points).
Proof.
  intro fp.
  destruct fp as [|v0 [|v1 [|v2 [|v3 [|v4 [|v5 rest]]]]]]; simpl;
    try (split; [split; [intros _; lia|reflexivity]|intro H; exfalso; lia]).
  split.
  - split; [discriminate|intro H; exfalso; lia].
  - intros _. eexists. split; [reflexivity|]. repeat split.
Qed.

Lemma visualize_debug_footprint_closed_strip_witness :
  (6 <= length hexagon)%nat /\
  exists points,
    visualize_debug_footprint_points hexagon = Returned points /\
    length points = 7%nat /\
    nth_error points 6 = nth_error points 0 /\
    firstn 6 points = map (fun v => mkPoint3d (x2 v) (y2 v) 0) (firstn 6 hexagon) /\
    visualize_debug_footprint_points (firstn 6 hexagon) = Returned points.
Proof.
  assert (H : (6 <= length hexagon)%nat) by (simpl; lia).
  split; [exact H|].
  exact (proj2 (visualize_debug_footprint_closed_strip hexagon) H).
Defined.

(** X19: when the shoulder rule does not accept the goal, a closest road
    lanelet is found and the goal is not rejected for its footprint,
    [is_goal_valid] accepts exactly a goal that passes the on-lane rule or
    is in a parking space or is in a parking lot, and logs nothing: a goal
    on the lane but askew is still accepted inside a parking area. *)
Theorem is_goal_valid_accepts_lane_or_parking :
  forall (W : Collaborators) (self : DefaultPlanner W) (fuel : nat) (goal : Pose)
         (path_lanelets : list Lanelet) (closest_lanelet : Lanelet),
    (forall sh,
        getClosestLanelet W (getShoulderLaneletsAtPose W (route_handler_ self) goal) goal
          = Some sh ->
        heading_within_threshold self sh goal = false) ->
    find_closest_road_lanelet self goal = Some closest_lanelet ->
    footprint_exceeds_lane self fuel goal closest_lanelet
      (combine_lanelets_with_shoulder W (route_handler_ self) path_lanelets)
      = Returned false ->
    is_goal_valid self fuel goal path_lanelets
    = Returned
        ([],
         on_lane_rule self closest_lanelet goal
         || is_in_parking_space W (getAllParkingSpaces W (route_handler_ self)) (position goal)
         || is_in_parking_lot W (getAllParkingLots W (route_handler_ self)) (position goal)).
Proof.
  intros W self fuel goal path cl Hsh Hcl Hex.
  unfold is_goal_valid, is_goal_valid_at.
  assert (Hno : match getClosestLanelet W
                        (getShoulderLaneletsAtPose W (route_handler_ self) goal) goal with
                | Some sh => heading_within_threshold self sh goal
                | None => false
                end = false).
  { destruct (getClosestLanelet W _ goal) as [sh|] eqn:E; [|reflexivity].
    apply Hsh. reflexivity. }
  rewrite Hno, Hcl, Hex. simpl.
  destruct (on_lane_rule self cl goal); [reflexivity|].
  destruct (is_in_parking_space _ _ _); [reflexivity|].
  destruct (is_in_parking_lot _ _ _); reflexivity.
Qed.

Lemma is_goal_valid_accepts_lane_or_parking_witness :
  find_closest_road_lanelet planner on_b_askew = Some lane_b /\
  footprint_exceeds_lane planner 5 on_b_askew lane_b
    (combine_lanelets_with_shoulder world (route_handler_ planner) [lane_a; lane_b])
    = Returned false /\
  is_goal_valid planner 5 on_b_askew [lane_a; lane_b]
  = Returned
      ([],
       on_lane_rule planner lane_b on_b_askew
       || is_in_parking_space world (getAllParkingSpaces world (route_handler_ planner))
            (position on_b_askew)
       || is_in_parking_lot world (getAllParkingLots world (route_handler_ planner))
            (position on_b_askew)).
Proof.
  assert (H1 : find_closest_road_lanelet planner on_b_askew = Some lane_b) by reflexivity.
  assert (H2 : footprint_exceeds_lane planner 5 on_b_askew lane_b
                 (combine_lanelets_with_shoulder world (route_handler_ planner)
                    [lane_a; lane_b]) = Returned false) by reflexivity.
  split; [exact H1|]. split; [exact H2|].
  refine (@is_goal_valid_accepts_lane_or_parking world planner 5 on_b_askew
            [lane_a; lane_b] lane_b _ H1 H2).
  intros sh Hsh. discriminate Hsh.
Defined.

(** ** The containment search over machine numbers *)

Section RoundingProperties.

Variable A : Arithmetic.
Variable W : Collaborators.
Variable self : DefaultPlanner W.
Variable goal_footprint : BasicPolygon2d.
Variable length2d : Lanelet -> num A.
Variable max_offset : num A.
Variable default_margin : num A.

(** A search whose failure leaves the length with its additions undone. *)
Let undoes (deeper : Lanelet -> Lanelet -> num A -> Outcome (bool * num A)) : Prop :=
  forall nl c l l',
    deeper nl c l = Returned (false, l') ->
    exists f, Rounding.undone A length2d f /\ l' = f l.

Lemma rounding_visit_next_lane_undoes deeper combined_prev search_margin next_lane len len' :
  undoes deeper ->
  Rounding.visit_next_lane A self goal_footprint length2d max_offset deeper combined_prev
    search_margin next_lane len = Returned (false, len') ->
  exists f, Rounding.undone A length2d f /\ len' = f len.
Proof.
  intros Hd. unfold Rounding.visit_next_lane.
  destruct (Rounding.long_enough _ _ _ _).
  - unfold Rounding.test_containment. destruct (within _ _ _); intro H; inversion H.
    exists (fun x => num_sub A ((fun y => y) (num_add A x (length2d next_lane)))
                       (length2d next_lane)).
    split; [|reflexivity].
    exact (@Rounding.undone_around A length2d next_lane (fun y => y)
             (@Rounding.undone_nothing A length2d)).
  - unfold Rounding.search_deeper. intro H. bind_inv H. destruct r as [[|] l]; inversion H.
    apply Hd in Hr. destruct Hr as [f [Hf ->]].
    exists (fun x => num_sub A (f (num_add A x (length2d next_lane))) (length2d next_lane)).
    split; [exact (@Rounding.undone_around A length2d next_lane f Hf)|reflexivity].
Qed.

Lemma rounding_search_following_undoes deeper combined_prev search_margin following :
  undoes deeper ->
  forall len len',
    Rounding.search_following A self goal_footprint length2d max_offset deeper combined_prev
      search_margin following len = Returned (false, len') ->
    exists f, Rounding.undone A length2d f /\ len' = f len.
Proof.
  intro Hd. induction following as [|next_lane rest IH]; simpl; intros len len' H.
  - inversion H. exists (fun x => x).
    split; [exact (@Rounding.undone_nothing A length2d)|reflexivity].
  - bind_inv H. destruct r as [[|] l]; [discriminate|].
    apply rounding_visit_next_lane_undoes in Hr; [|exact Hd].
    destruct Hr as [f [Hf ->]]. apply IH in H. destruct H as [g [Hg ->]].
    exists (fun x => g (f x)).
    split; [exact (@Rounding.undone_then A length2d f g Hf Hg)|reflexivity].
Qed.

Lemma rounding_check_undoes fuel :
  forall cur comb len margin len',
    Rounding.check_goal_footprint_inside_lanes A self goal_footprint length2d max_offset
      default_margin fuel cur comb len margin = Returned (false, len') ->
    exists f, Rounding.undone A length2d f /\ len' = f len.
Proof.
  induction fuel as [|fuel IH]; simpl; intros cur comb len margin len' H; [discriminate|].
  destruct (within _ _ _); [discriminate|].
  eapply rounding_search_following_undoes; [|exact H].
  intros nl c l l' Hrec. eapply IH. exact Hrec.
Qed.

Lemma undone_exact (f : num A -> num A) :
  (forall x l, num_sub A (num_add A x l) l = x) ->
  Rounding.undone A length2d f -> forall x, f x = x.
Proof.
  intros Hexact Hf. induction Hf as [|f g _ IHf _ IHg|next_lane f _ IHf]; intro x.
  - reflexivity.
  - rewrite IHf. apply IHg.
  - rewrite IHf. apply Hexact.
Qed.

End RoundingProperties.

Lemma rounding_search_following_rationals (W : Collaborators) (self : DefaultPlanner W)
    (goal_footprint : BasicPolygon2d) deeper1 deeper2 combined_prev search_margin following :
  (forall nl c l, deeper1 nl c l = deeper2 nl c l) ->
  forall len,
    Rounding.search_following rationals self goal_footprint (getLaneletLength2d W)
      (max_longitudinal_offset_m (vehicle_info_ self)) deeper1 combined_prev search_margin
      following len
    = search_following self goal_footprint deeper2 combined_prev search_margin following len.
Proof.
  intro Hd. induction following as [|next_lane rest IH]; simpl; intro len; [reflexivity|].
  assert (Hv : Rounding.visit_next_lane rationals self goal_footprint (getLaneletLength2d W)
                 (max_longitudinal_offset_m (vehicle_info_ self)) deeper1 combined_prev
                 search_margin next_lane len
               = visit_next_lane self goal_footprint deeper2 combined_prev search_margin
                   next_lane len).
  { unfold Rounding.visit_next_lane, visit_next_lane, Rounding.long_enough, long_enough.
    simpl. destruct (Qltb _ _); [reflexivity|].
    unfold Rounding.search_deeper, search_deeper. rewrite Hd. reflexivity. }
  rewrite Hv.
  destruct (visit_next_lane self goal_footprint deeper2 combined_prev search_margin
              next_lane len) as [[[|] l]| |]; simpl; [reflexivity|apply IH|reflexivity|reflexivity].
Qed.

Lemma rounding_check_rationals (W : Collaborators) (self : DefaultPlanner W)
    (goal_footprint : BasicPolygon2d) (fuel : nat) :
  forall cur comb len margin,
    Rounding.check_goal_footprint_inside_lanes rationals self goal_footprint
      (getLaneletLength2d W) (max_longitudinal_offset_m (vehicle_info_ self))
      (default_search_margin W) fuel cur comb len margin
    = check_goal_footprint_inside_lanes self goal_footprint fuel cur comb len margin.
Proof.
  induction fuel as [|fuel IH]; simpl; intros cur comb len margin; [reflexivity|].
  destruct (within _ _ _); [reflexivity|].
  apply rounding_search_following_rationals. intros nl c l. apply IH.
Qed.

(** C5 (amended): in a call of [check_goal_footprint_inside_lanes] that
    returns false every addition of a lanelet length has been followed by
    the subtraction of that length, before the next following lanelet is
    tried and before the call returns, whatever the arithmetic: the length
    at return is the length at entry with such additions and subtractions
    applied, properly nested.  It is the length at entry itself where a
    subtraction undoes an addition exactly, as over the rationals; in the
    doubles of the code it is the length at entry up to their rounding. *)
Theorem check_goal_footprint_inside_lanes_false_undoes_additions :
  (forall (A : Arithmetic) (W : Collaborators) (self : DefaultPlanner W)
          (goal_footprint : BasicPolygon2d) (length2d : Lanelet -> num A)
          (max_offset default_margin : num A) (fuel : nat)
          (current_lanelet combined_prev_lanelet : Lanelet)
          (next_lane_length search_margin next_lane_length' : num A),
      Rounding.check_goal_footprint_inside_lanes A self goal_footprint length2d max_offset
        default_margin fuel current_lanelet combined_prev_lanelet next_lane_length
        search_margin = Returned (false, next_lane_length') ->
      exists f,
        Rounding.undone A length2d f /\
        next_lane_length' = f next_lane_length /\
        ((forall x l, num_sub A (num_add A x l) l = x) ->
         next_lane_length' = next_lane_length)) /\
  (forall (W : Collaborators) (self : DefaultPlanner W) (goal_footprint : BasicPolygon2d)
          (fuel : nat) (current_lanelet combined_prev_lanelet : Lanelet)
          (next_lane_length search_margin next_lane_length' : Q),
      Rounding.check_goal_footprint_inside_lanes rationals self goal_footprint
        (getLaneletLength2d W) (max_longitudinal_offset_m (vehicle_info_ self))
        (default_search_margin W) fuel current_lanelet combined_prev_lanelet
        next_lane_length search_margin = Returned (false, next_lane_length') ->
      next_lane_length' == next_lane_length).
Proof.
  split.
  - intros A W self fp length2d max_offset default_margin fuel cur comb len margin len' H.
    apply rounding_check_undoes in H. destruct H as [f [Hf Hlen]].
    exists f. split; [exact Hf|]. split; [exact Hlen|].
    intro Hexact. rewrite Hlen. apply (undone_exact Hexact Hf).
  - intros W self fp fuel cur comb len margin len' H.
    rewrite rounding_check_rationals in H.
    eapply check_goal_footprint_inside_lanes_false_restores_length. exact H.
Qed.

(** The search in doubles, [lane_b] being 0.1 m long and [lane_c] 5 m. *)
Lemma check_goal_footprint_inside_lanes_false_undoes_additions_witness :
  exists len',
    Rounding.check_goal_footprint_inside_lanes binary64 planner stray_footprint
      Doubles.lengths Doubles.three Doubles.two 5 lane_a lane_a Doubles.zero Doubles.two
      = Returned (false, len') /\
    exists f, Rounding.undone binary64 Doubles.lengths f /\ len' = f Doubles.zero.
Proof.
  eexists. split; [vm_compute; reflexivity|].
  destruct (proj1 check_goal_footprint_inside_lanes_false_undoes_additions
              binary64 world planner stray_footprint Doubles.lengths Doubles.three
              Doubles.two 5%nat lane_a lane_a Doubles.zero Doubles.two _
              ltac:(vm_compute; reflexivity)) as [f [Hf [Hlen _]]].
  exists f. split; [exact Hf|exact Hlen].
Defined.

(** C5, as stated, fails in the doubles of the code: entered with a length
    of 0.0, with [lane_b] 0.1 m and [lane_c] 5 m long, the search returns
    false and a length that is not 0.0: (0.0 + 0.1 + 5.0) - 5.0 - 0.1 is
    -0x1.ap-52, about -3.6e-16. *)
Lemma check_goal_footprint_inside_lanes_false_rounding_counterexample :
  exists len',
    Rounding.check_goal_footprint_inside_lanes binary64 planner stray_footprint
      Doubles.lengths Doubles.three Doubles.two 5 lane_a lane_a Doubles.zero Doubles.two
      = Returned (false, len') /\
    PrimFloat.ltb len' Doubles.zero = true /\
    len' <> Doubles.zero.
Proof.
  eexists. split; [vm_compute; reflexivity|]. split; [vm_compute; reflexivity|].
  intro H. apply (f_equal (fun x => PrimFloat.ltb x Doubles.zero)) in H.
  vm_compute in H. discriminate.
Qed.

(** ** The goal validator and the planner with the footprint marker *)

Lemma debug_footprint_in_bounds_iff (ring : BasicPolygon2d) :
  (visualize_debug_footprint_points ring = OutOfBounds <-> (length ring < 6)%nat) /\
  ((6 <= length ring)%nat ->
   exists points, visualize_debug_footprint_points ring = Returned points).
Proof.
  destruct ring as [|v0 [|v1 [|v2 [|v3 [|v4 [|v5 rest]]]]]]; simpl;
    try (split; [split; [intros _; lia|reflexivity]|intro H; exfalso; lia]).
  split; [split; [discriminate|intro H; exfalso; lia]|].
  intros _. eexists. reflexivity.
Qed.

Section MarkerProperties.

Variable W : Collaborators.
Variable self : DefaultPlanner W.

Lemma is_goal_valid_at_in_bounds fuel goal path :
  is_goal_valid_at self fuel goal path <> OutOfBounds.
Proof.
  intro H. apply (is_goal_valid_in_bounds self fuel goal path).
  unfold is_goal_valid. rewrite H. reflexivity.
Qed.

Lemma with_marker_drawn fuel goal path points :
  visualize_debug_footprint_points (WithMarker.goal_footprint self goal) = Returned points ->
  WithMarker.is_goal_valid_at self fuel goal path = is_goal_valid_at self fuel goal path.
Proof.
  intro Hm. unfold WithMarker.is_goal_valid_at, is_goal_valid_at, WithMarker.on_shoulder.
  destruct (match getClosestLanelet W _ goal with Some _ => _ | None => _ end);
    [reflexivity|].
  destruct (find_closest_road_lanelet self goal); [|reflexivity].
  rewrite Hm. reflexivity.
Qed.

Lemma with_marker_not_reached fuel goal path :
  WithMarker.on_shoulder self goal = true \/ find_closest_road_lanelet self goal = None ->
  WithMarker.is_goal_valid_at self fuel goal path = is_goal_valid_at self fuel goal path.
Proof.
  unfold WithMarker.is_goal_valid_at, is_goal_valid_at, WithMarker.on_shoulder.
  intros [H|H].
  - rewrite H. reflexivity.
  - destruct (match getClosestLanelet W _ goal with Some _ => _ | None => _ end);
      [reflexivity|]. rewrite H. reflexivity.
Qed.

Lemma with_marker_out_of_bounds fuel goal path :
  WithMarker.is_goal_valid_at self fuel goal path = OutOfBounds <->
  WithMarker.reads_past_footprint self goal.
Proof.
  unfold WithMarker.reads_past_footprint. split.
  - intro H.
    destruct (WithMarker.on_shoulder self goal) eqn:Hsh.
    { rewrite with_marker_not_reached in H by (left; exact Hsh).
      exfalso. exact (is_goal_valid_at_in_bounds _ _ _ H). }
    destruct (find_closest_road_lanelet self goal) as [cl|] eqn:Hcl.
    2:{ rewrite with_marker_not_reached in H by (right; exact Hcl).
        exfalso. exact (is_goal_valid_at_in_bounds _ _ _ H). }
    split; [reflexivity|]. split; [exists cl; reflexivity|].
    destruct (Nat.lt_ge_cases (length (WithMarker.goal_footprint self goal)) 6)
      as [Hlt|Hge]; [exact Hlt|exfalso].
    destruct (proj2 (debug_footprint_in_bounds_iff _) Hge) as [points Hm].
    rewrite (with_marker_drawn _ _ _ Hm) in H.
    exact (is_goal_valid_at_in_bounds _ _ _ H).
  - intros [Hsh [[cl Hcl] Hlt]].
    apply (proj1 (debug_footprint_in_bounds_iff _)) in Hlt.
    unfold WithMarker.is_goal_valid_at. rewrite Hsh, Hcl, Hlt. reflexivity.
Qed.

End MarkerProperties.

(** X10: [is_goal_valid] with the marker of line 337 drawn reads out of
    bounds exactly when the shoulder rule has not accepted, a closest road
    lanelet is found and the footprint ring has fewer than six vertices.
    When the ring has six vertices or more, or the call returns before
    line 337, it returns what the validator without the marker returns. *)
Theorem is_goal_valid_marker_needs_six_vertices :
  forall (W : Collaborators) (self : DefaultPlanner W) (fuel : nat) (goal : Pose)
         (path_lanelets : list Lanelet),
    (WithMarker.is_goal_valid_at self fuel goal path_lanelets = OutOfBounds <->
     WithMarker.reads_past_footprint self goal) /\
    ((6 <= length (WithMarker.goal_footprint self goal))%nat ->
     WithMarker.is_goal_valid_at self fuel goal path_lanelets
     = is_goal_valid_at self fuel goal path_lanelets) /\
    (WithMarker.on_shoulder self goal = true \/ find_closest_road_lanelet self goal = None ->
     WithMarker.is_goal_valid_at self fuel goal path_lanelets
     = is_goal_valid_at self fuel goal path_lanelets).
Proof.
  intros W self fuel goal path. split; [apply with_marker_out_of_bounds|]. split.
  - intro Hge. destruct (proj2 (debug_footprint_in_bounds_iff _) Hge) as [points Hm].
    eapply with_marker_drawn. exact Hm.
  - apply with_marker_not_reached.
Qed.

Lemma is_goal_valid_marker_needs_six_vertices_witness :
  (6 <= length (WithMarker.goal_footprint (planner_with_hexagon true) on_b))%nat /\
  WithMarker.is_goal_valid_at (planner_with_hexagon true) 5 on_b [lane_a; lane_b]
  = is_goal_valid_at (planner_with_hexagon true) 5 on_b [lane_a; lane_b].
Proof.
  assert (H : (6 <= length (WithMarker.goal_footprint (planner_with_hexagon true) on_b))%nat)
    by (simpl; lia).
  split; [exact H|].
  exact (proj1 (proj2 (@is_goal_valid_marker_needs_six_vertices world_with_hexagon
                         (planner_with_hexagon true) 5 on_b [lane_a; lane_b])) H).
Defined.

(** X7: with the footprint check disabled, [is_goal_valid] (marker drawn)
    never runs the containment search: its outcome is the same for every
    recursion budget as for none, it never runs out of budget, and when it
    returns it has logged nothing and has not rejected for the footprint. *)
Theorem is_goal_valid_check_disabled_skips_search :
  forall (W : Collaborators) (self : DefaultPlanner W) (goal : Pose)
         (path_lanelets : list Lanelet),
    check_footprint_inside_lanes (param_ self) = false ->
    forall fuel : nat,
      WithMarker.is_goal_valid_at self fuel goal path_lanelets
        = WithMarker.is_goal_valid_at self 0 goal path_lanelets /\
      WithMarker.is_goal_valid_at self fuel goal path_lanelets <> OutOfFuel /\
      (forall w v,
          WithMarker.is_goal_valid_at self fuel goal path_lanelets = Returned (w, v) ->
          w = [] /\ v <> FootprintOutside).
Proof.
  intros W self goal path Hoff fuel.
  assert (Hex : forall n cl comb, footprint_exceeds_lane self n goal cl comb = Returned false).
  { intros n cl comb. unfold footprint_exceeds_lane. rewrite Hoff. reflexivity. }
  unfold WithMarker.is_goal_valid_at.
  destruct (WithMarker.on_shoulder self goal).
  { split; [reflexivity|]. split; [discriminate|].
    intros w v H. inversion H. split; [reflexivity|discriminate]. }
  destruct (find_closest_road_lanelet self goal) as [cl|].
  2:{ split; [reflexivity|]. split; [discriminate|].
      intros w v H. inversion H. split; [reflexivity|discriminate]. }
  destruct (Nat.lt_ge_cases (length (WithMarker.goal_footprint self goal)) 6) as [Hlt|Hge].
  { apply (proj1 (debug_footprint_in_bounds_iff _)) in Hlt. rewrite Hlt. cbn [bind].
    split; [reflexivity|]. split; [discriminate|]. intros w v H. discriminate H. }
  destruct (proj2 (debug_footprint_in_bounds_iff _) Hge) as [points Hm].
  rewrite Hm. cbn [bind]. rewrite !Hex. cbn [bind]. split; [reflexivity|].
  destruct (on_lane_rule _ _ _);
    [split; [discriminate|intros w v H; inversion H; split; [reflexivity|discriminate]]|].
  destruct (is_in_parking_space _ _ _);
    [split; [discriminate|intros w v H; inversion H; split; [reflexivity|discriminate]]|].
  destruct (is_in_parking_lot _ _ _);
    (split; [discriminate|intros w v H; inversion H; split; [reflexivity|discriminate]]).
Qed.

Lemma is_goal_valid_check_disabled_skips_search_witness :
  check_footprint_inside_lanes (param_ (planner_with_hexagon false)) = false /\
  WithMarker.is_goal_valid_at (planner_with_hexagon false) 7 at_end_of_c
    [lane_a; lane_b; lane_c]
  = WithMarker.is_goal_valid_at (planner_with_hexagon false) 0 at_end_of_c
      [lane_a; lane_b; lane_c] /\
  WithMarker.is_goal_valid_at (planner_with_hexagon false) 0 at_end_of_c
    [lane_a; lane_b; lane_c] = Returned ([], ValidOnLane).
Proof.
  assert (H : check_footprint_inside_lanes (param_ (planner_with_hexagon false)) = false)
    by reflexivity.
  split; [exact H|].
  split; [|reflexivity].
  exact (proj1 (@is_goal_valid_check_disabled_skips_search world_with_hexagon
                  (planner_with_hexagon false) at_end_of_c [lane_a; lane_b; lane_c] H 7%nat)).
Defined.

(** X11: when the vehicle footprint always has six vertices or more, [plan]
    with the marker of line 337 drawn is [plan] without it: what is proved
    of the one holds of the other. *)
Theorem plan_with_marker_is_plan :
  forall (W : Collaborators) (fuel : nat) (self : DefaultPlanner W) (points : list Pose),
    (forall goal, (6 <= length (WithMarker.goal_footprint self goal))%nat) ->
    WithMarker.plan fuel self points = plan fuel self points.
Proof.
  intros W fuel self points Hsix. unfold WithMarker.plan, plan.
  destruct (plan_route_lanelets self points []) as [all|]; [|reflexivity].
  destruct (of_option (back points)) as [last_point| |]; cbn [bind]; try reflexivity.
  destruct (select_goal_pose (with_route_lanelets self all) last_point) as [goal| |];
    cbn [bind]; try reflexivity.
  assert (E : WithMarker.is_goal_valid (with_route_lanelets self all) fuel goal all
              = is_goal_valid (with_route_lanelets self all) fuel goal all).
  { unfold WithMarker.is_goal_valid, is_goal_valid.
    destruct (proj2 (debug_footprint_in_bounds_iff
                       (WithMarker.goal_footprint (with_route_lanelets self all) goal))
                (Hsix goal)) as [pts Hm].
    erewrite with_marker_drawn by exact Hm. reflexivity. }
  rewrite E. reflexivity.
Qed.

Lemma plan_with_marker_is_plan_witness :
  (forall goal,
      (6 <= length (WithMarker.goal_footprint (planner_with_hexagon true) goal))%nat) /\
  WithMarker.plan 5 (planner_with_hexagon true) [on_a; on_b]
  = plan 5 (planner_with_hexagon true) [on_a; on_b].
Proof.
  assert (H : forall goal,
             (6 <= length (WithMarker.goal_footprint (planner_with_hexagon true) goal))%nat)
    by (intro goal; simpl; lia).
  split; [exact H|].
  exact (@plan_with_marker_is_plan world_with_hexagon 5 (planner_with_hexagon true)
           [on_a; on_b] H).
Defined.


